(** * Accredis backend: document lifecycle, signing, risk register, AI gateway

    A shallow embedding of [backend/server.py].  Stored entities are
    Python dicts held in MongoDB collections; they are modelled as
    finite maps from field names to values, collections as lists in
    insertion order, and a collection gives back the values it was
    given.  The clock, the uuid generator, the environment and the
    language-model call are inputs of the handlers. *)

From Stdlib Require Import ZArith Ascii String List Lia.
From stdpp Require Import base option list gmap strings sorting.

Open Scope string_scope.
Open Scope list_scope.
Open Scope Z_scope.

(** ** Python strings *)

Abbreviation chars := (list ascii).

Definition str (l : chars) : string := string_of_list_ascii l.
Definition unstr (s : string) : chars := list_ascii_of_string s.

Definition ord (c : ascii) : Z := Z.of_N (N_of_ascii c).
Definition chr (n : Z) : ascii := ascii_of_N (Z.to_N n).

(** The line feed, which a string literal cannot spell. *)
Definition LF : ascii := "010"%char.
Definition nl : string := String LF "".

(** [str.encode()]: UTF-8.  A character of the model is a code point
    below 256: one byte below 128, two bytes from 128 on. *)
Definition encode_char (c : ascii) : list Z :=
  let n := ord c in
  if n <? 128 then [n]
  else [Z.lor 192 (Z.shiftr n 6); Z.lor 128 (Z.land n 63)].

Definition encode (s : string) : list Z :=
  flat_map encode_char (unstr s).

(** ** datetime *)

Record datetime := mk_datetime {
  year : Z; month : Z; day : Z;
  hour : Z; minute : Z; second : Z; microsecond : Z
}.

Definition digit (n : Z) : ascii := chr (48 + n mod 10).

(** [n] written in decimal on exactly [w] digits, zero padded. *)
Fixpoint zfill (w : nat) (n : Z) : chars :=
  match w with
  | O => []
  | S w' => zfill w' (n / 10) ++ [digit n]
  end.

(** [datetime.isoformat()] of a naive datetime: the fraction is printed
    only when the microsecond field is not zero. *)
Definition isoformat (t : datetime) : string :=
  str (zfill 4 (year t) ++ unstr "-" ++ zfill 2 (month t) ++ unstr "-"
       ++ zfill 2 (day t) ++ unstr "T" ++ zfill 2 (hour t) ++ unstr ":"
       ++ zfill 2 (minute t) ++ unstr ":" ++ zfill 2 (second t)
       ++ (if microsecond t =? 0 then []
           else unstr "." ++ zfill 6 (microsecond t))).

(** Position of a datetime on the time line, for sorting. *)
Definition timestamp_key (t : datetime) : Z :=
  (((((year t * 13 + month t) * 32 + day t) * 24 + hour t) * 60
    + minute t) * 60 + second t) * 1000000 + microsecond t.

(** ** hashlib.sha256 (FIPS 180-4) on 32-bit words held in [Z] *)

Module Sha256.

Definition wrap (x : Z) : Z := x mod 2 ^ 32.
Definition add (x y : Z) : Z := wrap (x + y).
Definition rotr (n x : Z) : Z :=
  Z.lor (Z.shiftr x n) (wrap (Z.shiftl x (32 - n))).
Definition shr (n x : Z) : Z := Z.shiftr x n.
Definition lnot32 (x : Z) : Z := Z.lxor x (2 ^ 32 - 1).

Definition Ch (x y z : Z) : Z :=
  Z.lxor (Z.land x y) (Z.land (lnot32 x) z).
Definition Maj (x y z : Z) : Z :=
  Z.lxor (Z.lxor (Z.land x y) (Z.land x z)) (Z.land y z).
Definition bsig0 (x : Z) : Z :=
  Z.lxor (Z.lxor (rotr 2 x) (rotr 13 x)) (rotr 22 x).
Definition bsig1 (x : Z) : Z :=
  Z.lxor (Z.lxor (rotr 6 x) (rotr 11 x)) (rotr 25 x).
Definition ssig0 (x : Z) : Z :=
  Z.lxor (Z.lxor (rotr 7 x) (rotr 18 x)) (shr 3 x).
Definition ssig1 (x : Z) : Z :=
  Z.lxor (Z.lxor (rotr 17 x) (rotr 19 x)) (shr 10 x).

(** The constants are what the standard says they are: the first 32
    bits of the fractional parts of the cube roots of the first 64 primes,
    and of the square roots of the first 8. *)
Definition is_prime (n : Z) : bool :=
  forallb (fun d => negb (n mod Z.of_nat d =? 0)) (seq 2 (Z.to_nat n - 2)).

Definition primes : list Z :=
  List.filter is_prime (map Z.of_nat (seq 2 310)).

(** The largest [r] below [2 ^ b] above the start value with
    [r ^ e <= n], found bit by bit. *)
Fixpoint iroot (e n : Z) (b : nat) (r : Z) : Z :=
  match b with
  | O => r
  | S b' =>
      let c := r + 2 ^ Z.of_nat b' in
      iroot e n b' (if c ^ e <=? n then c else r)
  end.

Definition frac_root (e : Z) (p : Z) : Z :=
  wrap (iroot e (p * 2 ^ (32 * e)) 40 0).

Definition K : list Z := Eval vm_compute in map (frac_root 3) primes.

Definition H0 : list Z :=
  Eval vm_compute in map (frac_root 2) (firstn 8 primes).

(** Padding: the bit 1, zeros up to 56 modulo 64, the bit length on
    eight bytes, big endian. *)
Definition be_bytes (n : nat) (x : Z) : list Z :=
  map (fun i => Z.land (Z.shiftr x (8 * Z.of_nat i)) 255) (rev (seq 0 n)).

Definition pad (msg : list Z) : list Z :=
  let len := Z.of_nat (length msg) in
  let zeros := Z.to_nat ((55 - len) mod 64) in
  msg ++ [128] ++ repeat 0 zeros ++ be_bytes 8 (8 * len).

Fixpoint words (n : nat) (bs : list Z) : list Z :=
  match n, bs with
  | S n', b0 :: b1 :: b2 :: b3 :: bs' =>
      (Z.shiftl b0 24 + Z.shiftl b1 16 + Z.shiftl b2 8 + b3)
        :: words n' bs'
  | _, _ => []
  end.

(** Message schedule; [recent] holds the words computed so far, the
    latest first. *)
Fixpoint extend (n : nat) (recent : list Z) : list Z :=
  match n with
  | O => recent
  | S n' =>
      let w := add (add (ssig1 (nth 1 recent 0)) (nth 6 recent 0))
                   (add (ssig0 (nth 14 recent 0)) (nth 15 recent 0)) in
      extend n' (w :: recent)
  end.

Definition schedule (block : list Z) : list Z :=
  rev (extend 48 (rev (words 16 block))).

Record regs := mk_regs { ra : Z; rb : Z; rc : Z; rd : Z;
                         re : Z; rf : Z; rg : Z; rh : Z }.

Definition round (s : regs) (kw : Z * Z) : regs :=
  let t1 := add (add (add (add (rh s) (bsig1 (re s)))
                          (Ch (re s) (rf s) (rg s))) (fst kw)) (snd kw) in
  let t2 := add (bsig0 (ra s)) (Maj (ra s) (rb s) (rc s)) in
  mk_regs (add t1 t2) (ra s) (rb s) (rc s) (add (rd s) t1)
          (re s) (rf s) (rg s).

Definition regs_of (h : list Z) : regs :=
  mk_regs (nth 0 h 0) (nth 1 h 0) (nth 2 h 0) (nth 3 h 0)
          (nth 4 h 0) (nth 5 h 0) (nth 6 h 0) (nth 7 h 0).

Definition list_of (s : regs) : list Z :=
  [ra s; rb s; rc s; rd s; re s; rf s; rg s; rh s].

Definition compress (h : list Z) (block : list Z) : list Z :=
  let s := fold_left round (combine K (schedule block)) (regs_of h) in
  map (fun p => add (fst p) (snd p)) (combine h (list_of s)).

Fixpoint blocks (n : nat) (h : list Z) (bs : list Z) : list Z :=
  match n with
  | O => h
  | S n' => blocks n' (compress h (firstn 64 bs)) (skipn 64 bs)
  end.

Definition digest (msg : list Z) : list Z :=
  let p := pad msg in
  flat_map (be_bytes 4) (blocks (Nat.div (length p) 64) H0 p).

Definition hex_digit (n : Z) : ascii :=
  if n <? 10 then chr (48 + n) else chr (87 + n).

Definition hexdigest (msg : list Z) : string :=
  str (flat_map (fun b => [hex_digit (Z.shiftr b 4);
                           hex_digit (Z.land b 15)]) (digest msg)).

End Sha256.

(** [create_document_hash]: the SHA-256 digest, in hexadecimal, of the
    content, the user id and the ISO timestamp put end to end. *)
Definition create_document_hash
    (content user_id : string) (timestamp : datetime) : string :=
  let data := content +:+ user_id +:+ isoformat timestamp in
  Sha256.hexdigest (encode data).

(** ** Stored values, dicts and collections *)

Inductive value :=
| VNone
| VBool (b : bool)
| VInt (n : Z)
| VFloat (q : Z * positive)
| VStr (s : string)
| VDate (t : datetime)
| VList (l : list string)
| VFlags (l : list (string * bool)).

#[global] Instance datetime_eq_dec : EqDecision datetime.
Proof. solve_decision. Defined.

#[global] Instance value_eq_dec : EqDecision value.
Proof. solve_decision. Defined.

(** A Python dict with string keys, as stored in a collection. *)
Abbreviation dict := (gmap string value).

(** [d.get(k)], and [d[k]] where the key is known to be there. *)
Definition get (d : dict) (k : string) : value := default VNone (d !! k).

(** Python truthiness, as in [if not doc] and [if clinic_id]. *)
Definition truthy (v : value) : bool :=
  match v with
  | VNone => false
  | VBool b => b
  | VInt n => negb (n =? 0)
  | VFloat q => negb (fst q =? 0)
  | VStr s => negb (String.eqb s "")
  | VDate _ => true
  | VList l => negb (Nat.eqb (length l) 0)
  | VFlags l => negb (Nat.eqb (length l) 0)
  end.

(** An optional string parameter as a value. *)
Definition opt_str (o : option string) : value :=
  match o with Some s => VStr s | None => VNone end.

(** *** Queries

    A filter is a dict of required field values, or an [$or] of such
    dicts.  A required [None] is met by a null or a missing field. *)

Definition field_matches (d : dict) (k : string) (v : value) : bool :=
  match v with
  | VNone => bool_decide (d !! k = None ∨ d !! k = Some VNone)
  | _ => bool_decide (d !! k = Some v)
  end.

Definition matches (q : dict) (d : dict) : bool :=
  forallb (fun kv => field_matches d (fst kv) (snd kv)) (map_to_list q).

Inductive query :=
| Fields (q : dict)
| Or (qs : list dict).

Definition satisfies (q : query) (d : dict) : bool :=
  match q with
  | Fields f => matches f d
  | Or fs => existsb (fun f => matches f d) fs
  end.

(** [collection.find(q)]: the matching dicts in storage order. *)
Definition find (q : query) (coll : list dict) : list dict :=
  List.filter (satisfies q) coll.

(** [collection.find_one(q)]: the first match, if any. *)
Definition find_one (q : query) (coll : list dict) : option dict :=
  head (find q coll).

(** [collection.insert_one(d)]. *)
Definition insert_one (d : dict) (coll : list dict) : list dict :=
  coll ++ [d].

(** [collection.update_one(q, {"$set": upd})]: the first match takes the
    fields of [upd], its other fields and every other dict are kept. *)
Fixpoint update_one (q : query) (upd : dict) (coll : list dict) : list dict :=
  match coll with
  | [] => []
  | d :: rest =>
      if satisfies q d then (upd ∪ d) :: rest
      else d :: update_one q upd rest
  end.

(** Order of the values a cursor is sorted on: by type first (null,
    numbers, other, dates), then by magnitude.  The handlers sort on an
    int field and on a datetime field only. *)
Definition sort_key (v : value) : Z * Z :=
  match v with
  | VNone => (0, 0)
  | VInt n => (1, n)
  | VDate t => (3, timestamp_key t)
  | _ => (2, 0)
  end.

Definition key_le (a b : Z * Z) : Prop :=
  fst a < fst b ∨ (fst a = fst b ∧ snd a ≤ snd b).

(** [d1] may come before [d2] in a cursor sorted on [k], descending. *)
Definition desc (k : string) (d1 d2 : dict) : Prop :=
  key_le (sort_key (get d2 k)) (sort_key (get d1 k)).

#[global] Instance key_le_dec a b : Decision (key_le a b).
Proof. unfold key_le. apply _. Defined.

#[global] Instance desc_dec k d1 d2 : Decision (desc k d1 d2).
Proof. unfold desc. apply _. Defined.

(** [cursor.sort(k, -1)]. *)
Definition sort_desc (k : string) (l : list dict) : list dict :=
  merge_sort (desc k) l.

(** [cursor.to_list(n)]: at most [n] dicts, from the front. *)
Definition to_list (n : nat) (l : list dict) : list dict := take n l.

Record database := mk_database {
  users : list dict;
  clinics : list dict;
  documents : list dict;
  risks : list dict;
  audits : list dict
}.

(** The state the handlers share: the store and the process environment
    variable [OPENAI_API_KEY]. *)
Record world := mk_world {
  db : database;
  OPENAI_API_KEY : option string
}.

Definition with_users (f : list dict -> list dict) (w : world) : world :=
  let d := db w in
  mk_world (mk_database (f (users d)) (clinics d) (documents d) (risks d)
                        (audits d)) (OPENAI_API_KEY w).
Definition with_clinics (f : list dict -> list dict) (w : world) : world :=
  let d := db w in
  mk_world (mk_database (users d) (f (clinics d)) (documents d) (risks d)
                        (audits d)) (OPENAI_API_KEY w).
Definition with_documents (f : list dict -> list dict) (w : world) : world :=
  let d := db w in
  mk_world (mk_database (users d) (clinics d) (f (documents d)) (risks d)
                        (audits d)) (OPENAI_API_KEY w).
Definition with_risks (f : list dict -> list dict) (w : world) : world :=
  let d := db w in
  mk_world (mk_database (users d) (clinics d) (documents d) (f (risks d))
                        (audits d)) (OPENAI_API_KEY w).
Definition with_audits (f : list dict -> list dict) (w : world) : world :=
  let d := db w in
  mk_world (mk_database (users d) (clinics d) (documents d) (risks d)
                        (f (audits d))) (OPENAI_API_KEY w).

(** ** Exceptions *)

Inductive exn :=
| HTTPException (status_code : Z) (detail : string)
| RequestValidationError (field : string)
| Exception (msg : string).

Inductive outcome (A : Type) :=
| Return (a : A)
| Raise (e : exn).
Arguments Return {A} a.
Arguments Raise {A} e.

(** [try: body  except Exception as e: handler(e)]. *)
Definition try_except {A} (body : outcome A) (handler : exn -> outcome A)
  : outcome A :=
  match body with
  | Return a => Return a
  | Raise e => handler e
  end.

(** [str(e)]. *)
Definition exn_str (e : exn) : string :=
  match e with
  | HTTPException c d => d
  | RequestValidationError f => f
  | Exception m => m
  end.

(** ** Regular expressions and string methods used on titles *)

(** [str.isspace] on one character; the class [\s] of [re] on [str]
    patterns is the same set. *)
Definition isspace (c : ascii) : bool :=
  let n := ord c in
  ((9 <=? n) && (n <=? 13)) || ((28 <=? n) && (n <=? 32))
  || (n =? 133) || (n =? 160).

Definition eqc (a b : ascii) : bool := Ascii.eqb a b.

Module Re.

(** A pattern is a sequence of anchors, greedy repetitions of one
    character class, and the two ends of group 1. *)
Inductive item :=
| Bol
| Eol
| Rep (cls : ascii -> bool) (lo : nat)
| Open
| Close.

Record mstate := mk_mstate { g_start : nat; g_end : nat }.

(** [^] and [$] under [re.MULTILINE]. *)
Definition at_bol (s : chars) (pos : nat) : bool :=
  match pos with
  | O => true
  | S p => match s !! p with Some c => eqc c LF | None => false end
  end.

Definition at_eol (s : chars) (pos : nat) : bool :=
  match s !! pos with Some c => eqc c LF | None => true end.

(** Length of the longest run of [cls] at the front. *)
Fixpoint run (cls : ascii -> bool) (s : chars) : nat :=
  match s with
  | c :: s' => if cls c then S (run cls s') else O
  | [] => O
  end.

(** Backtracking of a greedy repetition: the counts [lo + extra] down
    to [lo], the first for which the rest of the pattern matches. *)
Fixpoint try_down {A} (k : nat -> option A) (lo extra : nat) : option A :=
  match k (lo + extra)%nat with
  | Some r => Some r
  | None =>
      match extra with
      | O => None
      | S e => try_down k lo e
      end
  end.

Fixpoint match_here (p : list item) (s : chars) (pos : nat) (g : mstate)
  : option mstate :=
  match p with
  | [] => Some g
  | Bol :: p' => if at_bol s pos then match_here p' s pos g else None
  | Eol :: p' => if at_eol s pos then match_here p' s pos g else None
  | Open :: p' => match_here p' s pos (mk_mstate pos (g_end g))
  | Close :: p' => match_here p' s pos (mk_mstate (g_start g) pos)
  | Rep cls lo :: p' =>
      let n := run cls (drop pos s) in
      if (n <? lo)%nat then None
      else try_down (fun c => match_here p' s (pos + c) g) lo (n - lo)
  end.

(** [re.search]: the leftmost position with a match; the result is
    [group(1)]. *)
Fixpoint search_from (p : list item) (s : chars) (pos fuel : nat)
  : option chars :=
  match match_here p s pos (mk_mstate 0 0) with
  | Some g => Some (take (g_end g - g_start g) (drop (g_start g) s))
  | None =>
      match fuel with
      | O => None
      | S f => search_from p s (S pos) f
      end
  end.

Definition search (p : list item) (s : chars) : option chars :=
  search_from p s 0 (length s).

(** [re.sub(cls, '', s)] for a one-character class. *)
Definition sub_empty (cls : ascii -> bool) (s : chars) : chars :=
  List.filter (fun c => negb (cls c)) s.

End Re.

Fixpoint lstrip (s : chars) : chars :=
  match s with
  | c :: s' => if isspace c then lstrip s' else s
  | [] => []
  end.

Definition rstrip (s : chars) : chars := rev (lstrip (rev s)).

(** [str.strip()]. *)
Definition strip (s : chars) : chars := rstrip (lstrip s).

(** [s.split(sep)[0]]: the text before the first [sep], all of [s] when
    it has none. *)
Fixpoint split_head (sep : ascii) (s : chars) : chars :=
  match s with
  | c :: s' => if eqc c sep then [] else c :: split_head sep s'
  | [] => []
  end.

Definition is_hash (c : ascii) : bool := eqc c "#".
Definition not_newline (c : ascii) : bool := negb (eqc c LF).

(** [r'^#+\s*(.+)$'] *)
Definition heading_re : list Re.item :=
  [Re.Bol; Re.Rep is_hash 1; Re.Rep isspace 0;
   Re.Open; Re.Rep not_newline 1; Re.Close; Re.Eol].

(** [r'[#*_`]'] *)
Definition marker (c : ascii) : bool :=
  eqc c "#" || eqc c "*" || eqc c "_" || eqc c "`".

(** The title of a generated document (the lines of [generate_document]
    between the model call and the construction of the dict). *)
Definition title_chars (ai_content : chars) : chars :=
  let extracted_title :=
    match Re.search heading_re ai_content with
    | Some g1 => strip g1
    | None =>
        let sentence := split_head "." ai_content in
        if (100 <? length sentence)%nat
        then take 100 sentence ++ unstr "..."
        else sentence
    end in
  strip (Re.sub_empty marker extracted_title).

Definition extract_title (ai_content : string) : string :=
  str (title_chars (unstr ai_content)).

(** ** Request models *)

Record UserCreate := mk_UserCreate {
  uc_email : string; uc_first_name : string; uc_last_name : string;
  uc_role : string; uc_password : string; uc_clinic_id : option string
}.

Record ClinicCreate := mk_ClinicCreate {
  cc_name : string; cc_abn : option string; cc_address : string;
  cc_state : string; cc_phone : option string; cc_email : option string
}.

Record DocumentGenerationRequest := mk_DocumentGenerationRequest {
  dg_prompt : string; dg_category : string; dg_jurisdiction : string;
  dg_clinic_id : string
}.

Record RiskCreate := mk_RiskCreate {
  rk_title : string; rk_description : string; rk_category : string;
  rk_severity : Z; rk_likelihood : Z; rk_mitigation_plan : option string;
  rk_clinic_id : string
}.

Record UploadFile := mk_UploadFile {
  file_size : Z; file_content_type : string; file_filename : string
}.

(** The constraints [Field(..., ge=1, le=5)] of [RiskBase]: the fields
    that break them, in declaration order. *)
Definition in_1_5 (n : Z) : bool := (1 <=? n) && (n <=? 5).

Definition RiskCreate_errors (r : RiskCreate) : list string :=
  (if in_1_5 (rk_severity r) then [] else ["severity"])
  ++ (if in_1_5 (rk_likelihood r) then [] else ["likelihood"]).

(** Validation of the request body, before the handler runs. *)
Definition validate_RiskCreate (r : RiskCreate) : outcome RiskCreate :=
  match RiskCreate_errors r with
  | [] => Return r
  | f :: _ => Raise (RequestValidationError f)
  end.

(** ** Constants and small helpers *)

Module DocumentStatus.
Definition DRAFT : string := "draft".
Definition REVIEW : string := "review".
Definition PUBLISHED : string := "published".
Definition ARCHIVED : string := "archived".
End DocumentStatus.

(** [not doc] on the result of [find_one]: nothing found, or an empty
    dict. *)
Definition not_found (o : option dict) : bool :=
  match o with
  | None => true
  | Some d => bool_decide (d = ∅)
  end.

(** The text of a field that holds a string; the handlers store strings
    in [content], [jurisdiction] and [id]. *)
Definition text (v : value) : string :=
  match v with VStr s => s | _ => "" end.

Definition by_id (id : string) : query := Fields {[ "id" := VStr id ]}.

(** Response models: the stored dict, with the defaults of the model for
    the fields it lacks. *)
Definition DocumentResponse (d : dict) : dict :=
  d ∪ {[ "status" := VStr DocumentStatus.DRAFT ]}
    ∪ {[ "version" := VInt 1 ]} ∪ {[ "tags" := VList [] ]}
    ∪ {[ "signature_hash" := VNone ]} ∪ {[ "signed_by" := VNone ]}
    ∪ {[ "signed_at" := VNone ]}.

Definition RiskResponse (d : dict) : dict :=
  d ∪ {[ "status" := VStr "open" ]} ∪ {[ "owner_id" := VNone ]}
    ∪ {[ "linked_docs" := VList [] ]} ∪ {[ "mitigation_plan" := VNone ]}.

Definition ClinicResponse (d : dict) : dict :=
  d ∪ {[ "abn" := VNone ]} ∪ {[ "phone" := VNone ]} ∪ {[ "email" := VNone ]}.

Definition UserResponse (d : dict) : dict :=
  delete "password_hash" d ∪ {[ "role" := VStr "staff" ]}
    ∪ {[ "clinic_id" := VNone ]} ∪ {[ "is_active" := VBool true ]}.

(** The language-model client: from the API key, the jurisdiction and
    category that fill the system message, and the user prompt, to the
    reply or the exception of [send_message]. *)
Definition chat_client := string -> string -> string -> string -> outcome string.

(** ** Utilities calling the model *)

Definition generate_ai_document
    (prompt jurisdiction category : string)
    (api_key : option string) (chat : chat_client) : outcome string :=
  try_except
    (match api_key with
     | Some k =>
         if negb (truthy (VStr k))
         then Raise (HTTPException 500 "AI service not configured")
         else chat k jurisdiction category prompt
     | None => Raise (HTTPException 500 "AI service not configured")
     end)
    (fun e => Raise (HTTPException 500 "Document generation failed")).

Definition AuditResult (document_id : string) : dict :=
  {[ "document_id" := VStr document_id ]}
    ∪ {[ "score" := VFloat (85, 1%positive) ]}
    ∪ {[ "compliance_issues" := VList [] ]}
    ∪ {[ "recommendations" :=
           VList ["Review and update annually"; "Ensure staff training"] ]}
    ∪ {[ "racgp_coverage" :=
           VFlags [("Standard_1", true); ("Standard_2", true)] ]}.

Definition audit_document
    (content jurisdiction : string)
    (api_key : option string) (chat : chat_client) : outcome dict :=
  try_except
    (match api_key with
     | Some k =>
         if negb (truthy (VStr k))
         then Raise (HTTPException 500 "AI service not configured")
         else
           match chat k jurisdiction "audit"
                      ("Audit this document:" +:+ nl +:+ nl +:+ content) with
           | Return _ => Return (AuditResult "")
           | Raise e => Raise e
           end
     | None => Raise (HTTPException 500 "AI service not configured")
     end)
    (fun e => Raise (HTTPException 500 "Document audit failed")).

(** ** Route handlers

    A handler takes the authenticated user's stored dict, the values the
    environment hands it (fresh uuids, one clock reading per call of
    [datetime.utcnow()], in call order) and the world; it returns its
    response or the exception it raises, and the world it leaves. *)

Definition register (user_data : UserCreate)
    (user_id hashed_password token : string) (now : datetime) (w : world)
  : outcome (string * dict) * world :=
  if negb (not_found (find_one (Fields {[ "email" := VStr (uc_email user_data) ]})
                               (users (db w))))
  then (Raise (HTTPException 400 "Email already registered"), w)
  else
    let user_doc : dict :=
      {[ "id" := VStr user_id ]}
        ∪ {[ "email" := VStr (uc_email user_data) ]}
        ∪ {[ "first_name" := VStr (uc_first_name user_data) ]}
        ∪ {[ "last_name" := VStr (uc_last_name user_data) ]}
        ∪ {[ "role" := VStr (uc_role user_data) ]}
        ∪ {[ "clinic_id" := opt_str (uc_clinic_id user_data) ]}
        ∪ {[ "password_hash" := VStr hashed_password ]}
        ∪ {[ "created_at" := VDate now ]}
        ∪ {[ "is_active" := VBool true ]} in
    (Return (token, UserResponse user_doc),
     with_users (insert_one user_doc) w).

(** What [jwt.decode] makes of the bearer token: the [user_id] of the
    payload, or one of its two errors. *)
Inductive decoded :=
| Payload (user_id : value)
| ExpiredSignature
| InvalidToken.

(** The dependency of every route but register and login. *)
Definition get_current_user (token : decoded) (w : world) : outcome dict :=
  match token with
  | Payload user_id =>
      if negb (truthy user_id)
      then Raise (HTTPException 401 "Invalid token")
      else
        match find_one (Fields {[ "id" := user_id ]}) (users (db w)) with
        | Some user =>
            if not_found (Some user)
            then Raise (HTTPException 401 "User not found")
            else Return user
        | None => Raise (HTTPException 401 "User not found")
        end
  | ExpiredSignature => Raise (HTTPException 401 "Token expired")
  | InvalidToken => Raise (HTTPException 401 "Invalid token")
  end.

(** [verify_password] is bcrypt's check of a password against a stored
    hash. *)
Definition login (email password : string)
    (verify_password : string -> string -> bool) (token : string) (w : world)
  : outcome (string * dict) * world :=
  match find_one (Fields {[ "email" := VStr email ]}) (users (db w)) with
  | Some user =>
      if not_found (Some user)
         || negb (verify_password password (text (get user "password_hash")))
      then (Raise (HTTPException 401 "Invalid credentials"), w)
      else if negb (truthy (default (VBool true) (user !! "is_active")))
      then (Raise (HTTPException 401 "Account deactivated"), w)
      else (Return (token, UserResponse user), w)
  | None => (Raise (HTTPException 401 "Invalid credentials"), w)
  end.

Definition get_current_user_info (current_user : dict) (w : world)
  : outcome dict * world :=
  (Return (UserResponse current_user), w).

Definition create_clinic (clinic_data : ClinicCreate) (current_user : dict)
    (clinic_id clinic_slug : string) (now : datetime) (w : world)
  : outcome dict * world :=
  let clinic_doc : dict :=
    {[ "id" := VStr clinic_id ]}
      ∪ {[ "slug" := VStr clinic_slug ]}
      ∪ {[ "name" := VStr (cc_name clinic_data) ]}
      ∪ {[ "abn" := opt_str (cc_abn clinic_data) ]}
      ∪ {[ "address" := VStr (cc_address clinic_data) ]}
      ∪ {[ "state" := VStr (cc_state clinic_data) ]}
      ∪ {[ "phone" := opt_str (cc_phone clinic_data) ]}
      ∪ {[ "email" := opt_str (cc_email clinic_data) ]}
      ∪ {[ "owner_id" := get current_user "id" ]}
      ∪ {[ "created_at" := VDate now ]} in
  let w1 := with_clinics (insert_one clinic_doc) w in
  let w2 := with_users
              (update_one (Fields {[ "id" := get current_user "id" ]})
                          {[ "clinic_id" := VStr clinic_id ]}) w1 in
  (Return (ClinicResponse clinic_doc), w2).

Definition get_clinic (clinic_id : string) (current_user : dict) (w : world)
  : outcome dict * world :=
  match find_one (by_id clinic_id) (clinics (db w)) with
  | Some clinic =>
      if not_found (Some clinic)
      then (Raise (HTTPException 404 "Clinic not found"), w)
      else (Return (ClinicResponse clinic), w)
  | None => (Raise (HTTPException 404 "Clinic not found"), w)
  end.

Definition get_user_clinics (current_user : dict) (w : world)
  : outcome (list dict) * world :=
  let clinics :=
    to_list 100
      (find (Or [ {[ "owner_id" := get current_user "id" ]};
                  {[ "id" := get current_user "clinic_id" ]} ])
            (clinics (db w))) in
  (Return (map ClinicResponse clinics), w).

Definition generate_document (request : DocumentGenerationRequest)
    (current_user : dict) (chat : chat_client)
    (doc_id : string) (now_created now_updated : datetime) (w : world)
  : outcome dict * world :=
  if not_found (find_one (by_id (dg_clinic_id request)) (clinics (db w)))
  then (Raise (HTTPException 404 "Clinic not found"), w)
  else
    match generate_ai_document (dg_prompt request) (dg_jurisdiction request)
            (dg_category request) (OPENAI_API_KEY w) chat with
    | Raise e => (Raise e, w)
    | Return ai_content =>
        let extracted_title := extract_title ai_content in
        let doc : dict :=
          {[ "id" := VStr doc_id ]}
            ∪ {[ "title" := VStr extracted_title ]}
            ∪ {[ "content" := VStr ai_content ]}
            ∪ {[ "category" := VStr (dg_category request) ]}
            ∪ {[ "jurisdiction" := VStr (dg_jurisdiction request) ]}
            ∪ {[ "clinic_id" := VStr (dg_clinic_id request) ]}
            ∪ {[ "status" := VStr DocumentStatus.DRAFT ]}
            ∪ {[ "version" := VInt 1 ]}
            ∪ {[ "tags" := VList [] ]}
            ∪ {[ "created_by" := get current_user "id" ]}
            ∪ {[ "created_at" := VDate now_created ]}
            ∪ {[ "updated_at" := VDate now_updated ]} in
        (Return (DocumentResponse doc), with_documents (insert_one doc) w)
    end.

(** The filter that [get_documents] and [get_risks] build from the
    optional [clinic_id] parameter and the user's own clinic. *)
Definition clinic_scope (clinic_id : option string) (current_user : dict)
  : dict :=
  if truthy (opt_str clinic_id)
  then {[ "clinic_id" := opt_str clinic_id ]}
  else if truthy (get current_user "clinic_id")
  then {[ "clinic_id" := get current_user "clinic_id" ]}
  else ∅.

Definition set_if (k : string) (o : option string) (q : dict) : dict :=
  if truthy (opt_str o) then <[ k := opt_str o ]> q else q.

Definition get_documents (clinic_id status category : option string)
    (current_user : dict) (w : world) : outcome (list dict) * world :=
  let query := clinic_scope clinic_id current_user in
  let query := set_if "status" status query in
  let query := set_if "category" category query in
  let documents :=
    to_list 100 (sort_desc "created_at"
                   (find (Fields query) (documents (db w)))) in
  (Return (map DocumentResponse documents), w).

Definition get_document (doc_id : string) (current_user : dict) (w : world)
  : outcome dict * world :=
  match find_one (by_id doc_id) (documents (db w)) with
  | Some doc =>
      if not_found (Some doc)
      then (Raise (HTTPException 404 "Document not found"), w)
      else (Return (DocumentResponse doc), w)
  | None => (Raise (HTTPException 404 "Document not found"), w)
  end.

Definition valid_statuses : list string :=
  [DocumentStatus.DRAFT; DocumentStatus.REVIEW;
   DocumentStatus.PUBLISHED; DocumentStatus.ARCHIVED].

Definition update_document_status (doc_id status : string)
    (current_user : dict)
    (now_updated now_hashed now_signed : datetime) (w : world)
  : outcome dict * world :=
  if negb (existsb (String.eqb status) valid_statuses)
  then (Raise (HTTPException 400 "Invalid status"), w)
  else
    match find_one (by_id doc_id) (documents (db w)) with
    | None => (Raise (HTTPException 404 "Document not found"), w)
    | Some doc =>
        if not_found (Some doc)
        then (Raise (HTTPException 404 "Document not found"), w)
        else
          let update_data : dict :=
            <[ "updated_at" := VDate now_updated ]>
              {[ "status" := VStr status ]} in
          let update_data : dict :=
            if String.eqb status DocumentStatus.PUBLISHED
            then
              let signature_hash :=
                create_document_hash (text (get doc "content"))
                  (text (get current_user "id")) now_hashed in
              <[ "signed_at" := VDate now_signed ]>
                (<[ "signed_by" := get current_user "id" ]>
                   (<[ "signature_hash" := VStr signature_hash ]>
                      update_data))
            else update_data in
          (Return (<[ "status" := VStr status ]>
                     {[ "message" := VStr "Document status updated" ]}),
           with_documents (update_one (by_id doc_id) update_data) w)
    end.

Definition audit_document_endpoint (doc_id : string) (current_user : dict)
    (chat : chat_client) (audit_id : string) (now : datetime) (w : world)
  : outcome dict * world :=
  match find_one (by_id doc_id) (documents (db w)) with
  | None => (Raise (HTTPException 404 "Document not found"), w)
  | Some doc =>
      if not_found (Some doc)
      then (Raise (HTTPException 404 "Document not found"), w)
      else
        match audit_document (text (get doc "content"))
                (text (get doc "jurisdiction")) (OPENAI_API_KEY w) chat with
        | Raise e => (Raise e, w)
        | Return audit_result =>
            let audit_result := <[ "document_id" := VStr doc_id ]> audit_result in
            let audit_doc : dict :=
              <[ "audited_at" := VDate now ]>
                (<[ "audited_by" := get current_user "id" ]>
                   (<[ "id" := VStr audit_id ]> audit_result)) in
            (Return audit_result, with_audits (insert_one audit_doc) w)
        end
  end.

Definition create_risk (risk_data : RiskCreate) (current_user : dict)
    (risk_id : string) (now_created now_updated : datetime) (w : world)
  : outcome dict * world :=
  let risk_doc : dict :=
    {[ "id" := VStr risk_id ]}
      ∪ {[ "title" := VStr (rk_title risk_data) ]}
      ∪ {[ "description" := VStr (rk_description risk_data) ]}
      ∪ {[ "category" := VStr (rk_category risk_data) ]}
      ∪ {[ "severity" := VInt (rk_severity risk_data) ]}
      ∪ {[ "likelihood" := VInt (rk_likelihood risk_data) ]}
      ∪ {[ "mitigation_plan" := opt_str (rk_mitigation_plan risk_data) ]}
      ∪ {[ "clinic_id" := VStr (rk_clinic_id risk_data) ]}
      ∪ {[ "risk_score" :=
             VInt (rk_severity risk_data * rk_likelihood risk_data) ]}
      ∪ {[ "status" := VStr "open" ]}
      ∪ {[ "owner_id" := get current_user "id" ]}
      ∪ {[ "linked_docs" := VList [] ]}
      ∪ {[ "created_at" := VDate now_created ]}
      ∪ {[ "updated_at" := VDate now_updated ]} in
  (Return (RiskResponse risk_doc), with_risks (insert_one risk_doc) w).

(** [POST /risks]: the body is validated against [RiskCreate], then the
    handler runs. *)
Definition post_risks (body : RiskCreate) (current_user : dict)
    (risk_id : string) (now_created now_updated : datetime) (w : world)
  : outcome dict * world :=
  match validate_RiskCreate body with
  | Raise e => (Raise e, w)
  | Return risk_data =>
      create_risk risk_data current_user risk_id now_created now_updated w
  end.

Definition get_risks (clinic_id : option string) (current_user : dict)
    (w : world) : outcome (list dict) * world :=
  let query := clinic_scope clinic_id current_user in
  let risks :=
    to_list 100 (sort_desc "risk_score"
                   (find (Fields query) (risks (db w)))) in
  (Return (map RiskResponse risks), w).

Definition upload_document (file : UploadFile)
    (clinic_id category jurisdiction : string) (current_user : dict)
    (parsed : outcome string)
    (doc_id : string) (now_created now_updated : datetime) (w : world)
  : outcome dict * world :=
  if 20 * 1024 * 1024 <? file_size file
  then (Raise (HTTPException 400 "File too large"), w)
  else
    match try_except parsed
            (fun e => Raise (HTTPException 400
                               ("Failed to process file: " +:+ exn_str e)))
    with
    | Raise e => (Raise e, w)
    | Return extracted_text =>
        let doc : dict :=
          {[ "id" := VStr doc_id ]}
            ∪ {[ "title" := VStr (file_filename file) ]}
            ∪ {[ "content" := VStr extracted_text ]}
            ∪ {[ "category" := VStr category ]}
            ∪ {[ "jurisdiction" := VStr jurisdiction ]}
            ∪ {[ "clinic_id" := VStr clinic_id ]}
            ∪ {[ "status" := VStr DocumentStatus.DRAFT ]}
            ∪ {[ "version" := VInt 1 ]}
            ∪ {[ "tags" := VList ["uploaded"] ]}
            ∪ {[ "created_by" := get current_user "id" ]}
            ∪ {[ "created_at" := VDate now_created ]}
            ∪ {[ "updated_at" := VDate now_updated ]} in
        (Return (<[ "document_id" := VStr doc_id ]>
                   {[ "message" := VStr "Document uploaded successfully" ]}),
         with_documents (insert_one doc) w)
    end.

(** [POST /settings]: rewrites the [.env] file (its outcome is [env_file])
    and sets the process variable. *)
Definition save_settings (settings : dict) (current_user : dict)
    (env_file : outcome unit) (w : world) : outcome dict * world :=
  let ok : dict := {[ "message" := VStr "Settings saved successfully" ]} in
  let failed := HTTPException 500 "Failed to save settings" in
  if truthy (get settings "openai_api_key")
  then
    match env_file, get settings "openai_api_key" with
    | Return _, VStr api_key =>
        (Return ok, mk_world (db w) (Some api_key))
    | _, _ => (Raise failed, w)
    end
  else (Return ok, w).

Definition get_settings (current_user : dict) (w : world)
  : outcome dict * world :=
  (Return (<[ "openai_api_key" :=
                VStr (if truthy (opt_str (OPENAI_API_KEY w))
                      then "***" else "") ]>
             (<[ "notification_email" := VBool true ]>
                (<[ "auto_backup" := VBool true ]>
                   {[ "audit_frequency" := VStr "monthly" ]}))), w).

(** ** Requests and runs

    One constructor per route, with the inputs of its handler. *)

Inductive request :=
| Register (user_data : UserCreate) (user_id hashed_password token : string)
    (now : datetime)
| Login (email password : string) (verify_password : string -> string -> bool)
    (token : string)
| Me (current_user : dict)
| GetSettings (current_user : dict)
| CreateClinic (clinic_data : ClinicCreate) (current_user : dict)
    (clinic_id clinic_slug : string) (now : datetime)
| GetClinic (clinic_id : string) (current_user : dict)
| GetUserClinics (current_user : dict)
| GenerateDocument (body : DocumentGenerationRequest) (current_user : dict)
    (chat : chat_client) (doc_id : string) (now_created now_updated : datetime)
| GetDocuments (clinic_id status category : option string)
    (current_user : dict)
| GetDocument (doc_id : string) (current_user : dict)
| UpdateDocumentStatus (doc_id status : string) (current_user : dict)
    (now_updated now_hashed now_signed : datetime)
| AuditDocument (doc_id : string) (current_user : dict) (chat : chat_client)
    (audit_id : string) (now : datetime)
| PostRisks (body : RiskCreate) (current_user : dict) (risk_id : string)
    (now_created now_updated : datetime)
| GetRisks (clinic_id : option string) (current_user : dict)
| UploadDocument (file : UploadFile) (clinic_id category jurisdiction : string)
    (current_user : dict) (parsed : outcome string) (doc_id : string)
    (now_created now_updated : datetime)
| SaveSettings (settings : dict) (current_user : dict)
    (env_file : outcome unit).

(** The world a request leaves. *)
Definition handle (r : request) (w : world) : world :=
  match r with
  | Register u i h t n => snd (register u i h t n w)
  | Login e p v t => snd (login e p v t w)
  | Me cu => snd (get_current_user_info cu w)
  | GetSettings cu => snd (get_settings cu w)
  | CreateClinic c cu i s n => snd (create_clinic c cu i s n w)
  | GetClinic i cu => snd (get_clinic i cu w)
  | GetUserClinics cu => snd (get_user_clinics cu w)
  | GenerateDocument b cu chat i n1 n2 =>
      snd (generate_document b cu chat i n1 n2 w)
  | GetDocuments c s g cu => snd (get_documents c s g cu w)
  | GetDocument i cu => snd (get_document i cu w)
  | UpdateDocumentStatus i s cu n1 n2 n3 =>
      snd (update_document_status i s cu n1 n2 n3 w)
  | AuditDocument i cu chat a n => snd (audit_document_endpoint i cu chat a n w)
  | PostRisks b cu i n1 n2 => snd (post_risks b cu i n1 n2 w)
  | GetRisks c cu => snd (get_risks c cu w)
  | UploadDocument f c g j cu p i n1 n2 =>
      snd (upload_document f c g j cu p i n1 n2 w)
  | SaveSettings s cu e => snd (save_settings s cu e w)
  end.

Definition run (reqs : list request) (w : world) : world :=
  fold_left (fun w r => handle r w) reqs w.

(** The user a request is made by; [get_current_user] hands the handler
    the stored dict of a user found by id. *)
Definition requester (r : request) : option dict :=
  match r with
  | Register _ _ _ _ _ | Login _ _ _ _ => None
  | Me cu | GetSettings cu
  | CreateClinic _ cu _ _ _ | GetClinic _ cu | GetUserClinics cu
  | GenerateDocument _ cu _ _ _ _ | GetDocuments _ _ _ cu
  | GetDocument _ cu | UpdateDocumentStatus _ _ cu _ _ _
  | AuditDocument _ cu _ _ _ | PostRisks _ cu _ _ _ | GetRisks _ cu
  | UploadDocument _ _ _ _ cu _ _ _ _ | SaveSettings _ cu _ => Some cu
  end.

Definition has_id (d : dict) : Prop := get d "id" ≠ VNone.

Definition authenticated (r : request) : Prop :=
  match requester r with Some cu => has_id cu | None => True end.

Definition empty_world (key : option string) : world :=
  mk_world (mk_database [] [] [] [] []) key.

(** ** Vocabulary of the properties *)

(** The signature fields of a stored document. *)
Definition signature_fields : list string :=
  ["signature_hash"; "signed_by"; "signed_at"].

Definition populated (d : dict) (k : string) : Prop := get d k ≠ VNone.

Definition signed (d : dict) : Prop :=
  Forall (populated d) signature_fields.

Definition unsigned (d : dict) : Prop :=
  Forall (fun k => get d k = VNone) signature_fields.

Definition is_published (d : dict) : Prop :=
  get d "status" = VStr DocumentStatus.PUBLISHED.

#[global] Instance populated_dec d k : Decision (populated d k).
Proof. unfold populated. apply _. Defined.
#[global] Instance signed_dec d : Decision (signed d).
Proof. unfold signed. apply _. Defined.
#[global] Instance is_published_dec d : Decision (is_published d).
Proof. unfold is_published. apply _. Defined.

(** Position of the document that [update_one] writes to. *)
Definition target (doc_id : string) (docs : list dict) : option nat :=
  fst <$> list_find (fun d => satisfies (by_id doc_id) d = true) docs.

(** Request [r], made in world [w], writes the status published to the
    document stored at position [i]. *)
Definition publishes (r : request) (w : world) (i : nat) : bool :=
  match r with
  | UpdateDocumentStatus doc_id status _ _ _ _ =>
      String.eqb status DocumentStatus.PUBLISHED
      && bool_decide (target doc_id (documents (db w)) = Some i)
  | _ => false
  end.

(** Some request of the run [reqs] from [w] does. *)
Fixpoint published_in (reqs : list request) (w : world) (i : nat) : bool :=
  match reqs with
  | [] => false
  | r :: rest => publishes r w i || published_in rest (handle r w) i
  end.

(** The integer a risk is scored with. *)
Definition risk_score (d : dict) : Z :=
  match get d "risk_score" with VInt n => n | _ => 0 end.

Definition scored (d : dict) : Prop := ∃ n, d !! "risk_score" = Some (VInt n).

(** The fields a successful status request writes. *)
Definition written (status : string) (doc current_user : dict)
    (now_updated now_hashed now_signed : datetime) : dict :=
  let base : dict :=
    <[ "updated_at" := VDate now_updated ]> {[ "status" := VStr status ]} in
  if String.eqb status DocumentStatus.PUBLISHED
  then <[ "signed_at" := VDate now_signed ]>
         (<[ "signed_by" := get current_user "id" ]>
            (<[ "signature_hash" :=
                  VStr (create_document_hash (text (get doc "content"))
                          (text (get current_user "id")) now_hashed) ]> base))
  else base.

Definition status_response (status : string) : dict :=
  <[ "status" := VStr status ]>
    {[ "message" := VStr "Document status updated" ]}.

(** The keys a status request writes. *)
Definition written_keys (status : string) : list string :=
  ["status"; "updated_at"]
  ++ (if String.eqb status DocumentStatus.PUBLISHED
      then signature_fields else []).

(** The keys that a status request may write. *)
Definition status_keys : list string :=
  ["status"; "updated_at"] ++ signature_fields.

(** The state of the documents that every run keeps. *)
Definition well_signed (w : world) : Prop :=
  ∀ i d, documents (db w) !! i = Some d →
         (signed d ∨ unsigned d) ∧ (is_published d → signed d).

(** ** Sample data for the worked cases *)

Definition sample_user : dict :=
  <[ "clinic_id" := VStr "clinic-1" ]> {[ "id" := VStr "user-1" ]}.

Definition sample_time : datetime := mk_datetime 2024 3 1 9 0 0 0.

(** A request that files a risk of the given severity and likelihood
    for the clinic. *)
Definition file_risk (clinic : string) (n : nat) (sev lik : Z) : request :=
  PostRisks (mk_RiskCreate "Spill" "Spill in the corridor" "WHS" sev lik
               None clinic)
    sample_user ("risk-" +:+ str (zfill 3 (Z.of_nat n)))
    sample_time sample_time.

(** [n] risks of one clinic, of various scores. *)
Definition many_risks (n : nat) : list request :=
  map (fun i => file_risk "clinic-1" i (1 + Z.of_nat i mod 5)
                  (1 + (Z.of_nat i / 5) mod 5))
      (seq 0 n).

(** The cursors behind the three listings, before [to_list]. *)
Definition clinics_cursor (cu : dict) (w : world) : list dict :=
  find (Or [ {[ "owner_id" := get cu "id" ]};
             {[ "id" := get cu "clinic_id" ]} ]) (clinics (db w)).

Definition documents_query (clinic_id status category : option string)
    (cu : dict) : dict :=
  set_if "category" category
    (set_if "status" status (clinic_scope clinic_id cu)).

Definition documents_cursor (clinic_id status category : option string)
    (cu : dict) (w : world) : list dict :=
  sort_desc "created_at"
    (find (Fields (documents_query clinic_id status category cu))
          (documents (db w))).

Definition risks_cursor (clinic_id : option string) (cu : dict) (w : world)
  : list dict :=
  sort_desc "risk_score"
    (find (Fields (clinic_scope clinic_id cu)) (risks (db w))).

(** A response list holds the first 100 entries of a cursor, and no
    more. *)
Definition capped (cursor response : list dict) (R : dict -> dict) : Prop :=
  response = map R (take 100 cursor)
  ∧ (length response ≤ 100)%nat
  ∧ length response = (100 `min` length cursor)%nat
  ∧ (∀ i, (i < 100)%nat → response !! i = R <$> cursor !! i)
  ∧ (∀ i, (100 ≤ i)%nat → response !! i = None).

(** A user who belongs to no clinic. *)
Definition unaffiliated_user : dict :=
  <[ "clinic_id" := VNone ]> {[ "id" := VStr "user-9" ]}.

(** ** Vocabulary of titles *)

(** Some line of [s] begins with a hash; [bol] tells whether [s] itself
    starts a line. *)
Fixpoint line_starts_with_hash (bol : bool) (s : chars) : bool :=
  match s with
  | [] => false
  | c :: s' => (bol && is_hash c) || line_starts_with_hash (eqc c LF) s'
  end.

(** A line without the hashes it begins with. *)
Fixpoint drop_hashes (s : chars) : chars :=
  match s with
  | c :: s' => if is_hash c then drop_hashes s' else s
  | [] => []
  end.

(** The text of a heading line: what follows the hashes, trimmed. *)
Definition heading_text (line : chars) : chars := strip (drop_hashes line).

(** [pre] ends where a line starts; [rest] starts where a line ends. *)
Definition ends_line (pre : chars) : Prop := pre = [] ∨ last pre = Some LF.
Definition line_end (rest : chars) : Prop := rest = [] ∨ head rest = Some LF.

(** [^] at position [q] of [s], when the start of [s] is a line start
    only if [b]. *)
Definition bol_at (b : bool) (s : chars) (q : nat) : bool :=
  match q with
  | O => b
  | S p => match s !! p with Some c => eqc c LF | None => false end
  end.

(** Two replies of the model without heading, the first sentence longer
    than 100 characters. *)
Definition long_plain : string :=
  "This policy applies to every member of the clinical and administrative team working on the premises of the practice. It is reviewed yearly.".

Definition long_marked : string :=
  "**Hand Hygiene Policy** applies to every member of the clinical and administrative team working on the premises of the practice. It is reviewed yearly.".

(** ** Vocabulary of the handlers' properties *)



(** Some stored user carries the email. *)
Definition registered (email : string) (w : world) : Prop :=
  ∃ d, d ∈ users (db w) ∧ d !! "email" = Some (VStr email).

(** A lower-case hexadecimal digit. *)
Definition is_lower_hex (c : ascii) : bool :=
  let n := ord c in
  ((48 <=? n) && (n <=? 57)) || ((97 <=? n) && (n <=? 102)).

(** A world with one clinic, an API key and one uploaded draft. *)
Definition sample_clinic : request :=
  CreateClinic (mk_ClinicCreate "Harbour Street Practice" None
                  "1 Harbour Street" "NSW" None None)
    sample_user "clinic-1" "harbour-street-practice" sample_time.

Definition sample_key : request :=
  SaveSettings {[ "openai_api_key" := VStr "sk-1" ]} sample_user (Return tt).

Definition sample_upload : request :=
  UploadDocument (mk_UploadFile 11 "text/plain" "notes.txt")
    "clinic-1" "policy" "national" sample_user (Return "Wash hands.")
    "doc-1" sample_time sample_time.

Definition sample_world : world :=
  run [sample_clinic; sample_key; sample_upload] (empty_world None).

(** A model that always replies with the same text. *)
Definition canned (reply : string) : chat_client :=
  fun _ _ _ _ => Return reply.

(** A world with one stored user whose account was deactivated. *)
Definition deactivated_world : world :=
  with_users (fun _ => [ <[ "is_active" := VBool false ]>
                           (<[ "password_hash" := VStr "$2b$12$hash" ]>
                              (<[ "email" := VStr "sam@example.com" ]>
                                 {[ "id" := VStr "user-3" ]})) ])
    (empty_world None).

(** * Properties *)

(** ** The hash and the timestamp format agree with the libraries *)

Example sha256_constants :
  length Sha256.K = 64%nat
  ∧ nth 0 Sha256.K 0 = 0x428a2f98 ∧ nth 63 Sha256.K 0 = 0xc67178f2
  ∧ nth 0 Sha256.H0 0 = 0x6a09e667 ∧ nth 7 Sha256.H0 0 = 0x5be0cd19.
Proof. repeat split. Qed.

Example sha256_abc :
  Sha256.hexdigest (encode "abc")
  = "ba7816bf8f01cfea414140de5dae2223b00361a396177a9cb410ff61f20015ad".
Proof. vm_compute. reflexivity. Qed.

Example sha256_empty :
  Sha256.hexdigest (encode "")
  = "e3b0c44298fc1c149afbf4c8996fb92427ae41e4649b934ca495991b7852b855".
Proof. vm_compute. reflexivity. Qed.

Example sha256_two_blocks :
  Sha256.hexdigest (repeat 97 70)
  = "6bd5e5034855a11241f0dee8fc72850ffd9955b28347a86428b5fa19119f6ad0".
Proof. vm_compute. reflexivity. Qed.

Example isoformat_whole_second :
  isoformat (mk_datetime 2024 1 1 0 0 0 0) = "2024-01-01T00:00:00".
Proof. reflexivity. Qed.

Example isoformat_fraction :
  isoformat (mk_datetime 5 1 2 3 4 5 60) = "0005-01-02T03:04:05.000060".
Proof. reflexivity. Qed.

Example create_document_hash_sample :
  create_document_hash "Policy body" "u1" (mk_datetime 2024 1 1 0 0 0 0)
  = "9a0724fee4a2d94ab0959e0e94fb497bcbaedc0a94c02974c2c410761dd156ca".
Proof. vm_compute. reflexivity. Qed.

(** ** The store *)

Lemma matches_singleton (k : string) (v : value) (d : dict) :
  matches {[ k := v ]} d = field_matches d k v.
Proof.
  unfold matches. rewrite map_to_list_singleton. simpl.
  by rewrite andb_true_r.
Qed.

Lemma satisfies_by_id (id : string) (d : dict) :
  satisfies (by_id id) d = true ↔ d !! "id" = Some (VStr id).
Proof.
  unfold by_id. simpl. rewrite matches_singleton. simpl.
  by rewrite bool_decide_eq_true.
Qed.

Lemma matches_empty (d : dict) : matches ∅ d = true.
Proof. unfold matches. by rewrite map_to_list_empty. Qed.

Lemma find_all (coll : list dict) : find (Fields ∅) coll = coll.
Proof.
  unfold find. induction coll as [|d coll IH]; simpl; [done|].
  unfold satisfies at 1. rewrite matches_empty. by f_equal.
Qed.

#[global] Arguments satisfies : simpl never.
#[global] Arguments by_id : simpl never.

Lemma find_one_by_id_Some (id : string) (coll : list dict) (d : dict) :
  find_one (by_id id) coll = Some d →
  d !! "id" = Some (VStr id) ∧ not_found (Some d) = false.
Proof.
  unfold find_one, find. intros H.
  assert (Hin : d ∈ List.filter (satisfies (by_id id)) coll).
  { destruct (List.filter _ coll) as [|x l]; simplify_eq/=. left. }
  apply list_elem_of_In, filter_In in Hin as [_ Hsat].
  apply satisfies_by_id in Hsat. split; [done|].
  simpl. apply bool_decide_eq_false. intros ->.
  by rewrite lookup_empty in Hsat.
Qed.

Lemma find_one_None (q : query) (coll : list dict) :
  find_one q coll = None ↔ Forall (fun d => satisfies q d = false) coll.
Proof.
  unfold find_one, find. induction coll as [|d coll IH]; simpl.
  - split; [constructor | done].
  - destruct (satisfies q d) eqn:E; simpl.
    + split; [done|]. intros H. inversion H; congruence.
    + rewrite IH. split; [by constructor | by inversion 1].
Qed.

Lemma find_one_target (id : string) (coll : list dict) :
  find_one (by_id id) coll
  = snd <$> list_find (fun d => satisfies (by_id id) d = true) coll.
Proof.
  unfold find_one, find. induction coll as [|d coll IH]; simpl; [done|].
  destruct (satisfies (by_id id) d) eqn:E; simpl; [done|].
  rewrite IH. by destruct (list_find _ coll) as [[??]|].
Qed.

Lemma update_one_length (q : query) (upd : dict) (coll : list dict) :
  length (update_one q upd coll) = length coll.
Proof.
  induction coll as [|d coll IH]; simpl; [done|].
  destruct (satisfies q d); simpl; by rewrite ?IH.
Qed.

(** The dict at the written position takes the new fields. *)
Lemma update_one_hit (id : string) (upd : dict) (coll : list dict) i d :
  target id coll = Some i → coll !! i = Some d →
  update_one (by_id id) upd coll !! i = Some (upd ∪ d).
Proof.
  unfold target. revert i. induction coll as [|x coll IH]; intros i; simpl.
  - done.
  - destruct (satisfies (by_id id) x) eqn:E; simpl.
    + intros [= <-]. simpl. congruence.
    + destruct (list_find _ coll) as [[j y]|] eqn:F; simpl; [|done].
      intros [= <-]. simpl. by apply IH.
Qed.

(** Every other position keeps its dict. *)
Lemma update_one_miss (id : string) (upd : dict) (coll : list dict) i :
  target id coll ≠ Some i →
  update_one (by_id id) upd coll !! i = coll !! i.
Proof.
  unfold target. revert i. induction coll as [|x coll IH]; intros i; simpl.
  - done.
  - destruct (satisfies (by_id id) x) eqn:E; simpl.
    + destruct i; [congruence|done].
    + destruct i as [|i]; simpl; [done|]. intros H. apply IH.
      destruct (list_find _ coll) as [[j y]|]; simpl in *; congruence.
Qed.

Lemma target_Some (id : string) (coll : list dict) i :
  target id coll = Some i →
  ∃ d, coll !! i = Some d ∧ find_one (by_id id) coll = Some d.
Proof.
  unfold target. rewrite find_one_target.
  destruct (list_find _ coll) as [[j d]|] eqn:F; simpl; [|done].
  intros [= <-]. apply list_find_Some in F as (? & ? & ?). eauto.
Qed.

Lemma target_None (id : string) (coll : list dict) :
  target id coll = None ↔ find_one (by_id id) coll = None.
Proof.
  unfold target. rewrite find_one_target.
  by destruct (list_find _ coll) as [[j d]|].
Qed.

(** ** The status handler, case by case *)


Lemma valid_status_iff (status : string) :
  existsb (String.eqb status) valid_statuses = true ↔ status ∈ valid_statuses.
Proof.
  rewrite existsb_exists. split.
  - intros (x & Hin & Heq). apply String.eqb_eq in Heq as ->.
    by apply list_elem_of_In.
  - intros Hin. exists status. split; [by apply list_elem_of_In|].
    apply String.eqb_refl.
Qed.

Lemma update_document_status_invalid doc_id status cu n1 n2 n3 w :
  status ∉ valid_statuses →
  update_document_status doc_id status cu n1 n2 n3 w
  = (Raise (HTTPException 400 "Invalid status"), w).
Proof.
  intros H. unfold update_document_status.
  destruct (existsb _ valid_statuses) eqn:E; [|done].
  by apply valid_status_iff in E.
Qed.

Lemma update_document_status_missing doc_id status cu n1 n2 n3 w :
  status ∈ valid_statuses →
  find_one (by_id doc_id) (documents (db w)) = None →
  update_document_status doc_id status cu n1 n2 n3 w
  = (Raise (HTTPException 404 "Document not found"), w).
Proof.
  intros H F. unfold update_document_status.
  apply valid_status_iff in H. by rewrite H, F.
Qed.

Lemma update_document_status_found doc_id status cu n1 n2 n3 w doc :
  status ∈ valid_statuses →
  find_one (by_id doc_id) (documents (db w)) = Some doc →
  update_document_status doc_id status cu n1 n2 n3 w
  = (Return (status_response status),
     with_documents
       (update_one (by_id doc_id) (written status doc cu n1 n2 n3)) w).
Proof.
  intros H F. unfold update_document_status.
  apply valid_status_iff in H. rewrite H, F. simpl negb. cbv iota.
  destruct (find_one_by_id_Some _ _ _ F) as [_ ->].
  unfold written, status_response. by destruct (String.eqb status _).
Qed.

Lemma written_status status doc cu n1 n2 n3 :
  written status doc cu n1 n2 n3 !! "status" = Some (VStr status)
  ∧ written status doc cu n1 n2 n3 !! "updated_at" = Some (VDate n1).
Proof. unfold written. by destruct (String.eqb status _). Qed.


Lemma written_other status doc cu n1 n2 n3 (k : string) :
  k ∉ written_keys status → written status doc cu n1 n2 n3 !! k = None.
Proof.
  unfold written, written_keys, signature_fields.
  destruct (String.eqb status _); intros H; simpl in H;
    repeat (rewrite lookup_insert_ne by (intros <-; apply H; set_solver));
    apply lookup_singleton_ne; intros <-; apply H; set_solver.
Qed.

Lemma written_signature doc cu n1 n2 n3 :
  let u := written DocumentStatus.PUBLISHED doc cu n1 n2 n3 in
  u !! "signature_hash"
    = Some (VStr (create_document_hash (text (get doc "content"))
                    (text (get cu "id")) n2))
  ∧ u !! "signed_by" = Some (get cu "id")
  ∧ u !! "signed_at" = Some (VDate n3).
Proof. done. Qed.

Lemma update_one_find_one (id : string) (upd : dict) (coll : list dict) :
  upd !! "id" = None →
  find_one (by_id id) (update_one (by_id id) upd coll)
  = (upd ∪.) <$> find_one (by_id id) coll.
Proof.
  intros Hid. unfold find_one, find.
  induction coll as [|d coll IH]; simpl; [done|].
  destruct (satisfies (by_id id) d) eqn:E; simpl.
  - assert (satisfies (by_id id) (upd ∪ d) = true) as ->; [|done].
    apply satisfies_by_id. apply satisfies_by_id in E.
    by rewrite lookup_union_r.
  - by rewrite E.
Qed.


(** C7 (code defect): without an API key, and with a key whose model call
    raises, [generate_ai_document] raises one and the same exception,
    HTTP 500 "Document generation failed": the "AI service not
    configured" error is raised inside the [try] block and replaced by
    the blanket handler. *)
Theorem C7_missing_key_raises_generation_failed
    (prompt jurisdiction category : string) (chat : chat_client) (e : exn) :
  generate_ai_document prompt jurisdiction category None chat
  = Raise (HTTPException 500 "Document generation failed")
  ∧ generate_ai_document prompt jurisdiction category (Some "") chat
    = Raise (HTTPException 500 "Document generation failed")
  ∧ generate_ai_document prompt jurisdiction category (Some "sk-test-key")
      (fun _ _ _ _ => Raise e)
    = Raise (HTTPException 500 "Document generation failed").
Proof. done. Qed.

(** The same holds of the request as a whole. *)
Lemma generate_document_without_key body cu chat doc_id n1 n2 w :
  OPENAI_API_KEY w = None →
  not_found (find_one (by_id (dg_clinic_id body)) (clinics (db w))) = false →
  generate_document body cu chat doc_id n1 n2 w
  = (Raise (HTTPException 500 "Document generation failed"), w).
Proof. intros Hk Hc. unfold generate_document. by rewrite Hc, Hk. Qed.

(** ** Risks *)





(** ** Publishing *)



(** C2 (code defect): the digest is computed over one reading of the
    clock and [signed_at] is a later reading.  A draft uploaded by user
    "user-1" with content "Keep vaccines between 2 and 8 degrees" is
    published while the clock moves by three microseconds between the two
    readings: the stored digest is the hash over the earlier reading, and
    hashing the content, the user id and the stored [signed_at] gives
    another digest. *)
Theorem C2_stored_digest_is_not_over_signed_at :
  let cu : dict := {[ "id" := VStr "user-1" ]} in
  let content := "Keep vaccines between 2 and 8 degrees" in
  let upload :=
    UploadDocument (mk_UploadFile 37 "text/plain" "cold-chain.txt")
      "clinic-1" "policy" "national" cu (Return content) "doc-1"
      (mk_datetime 2024 3 1 9 0 0 0) (mk_datetime 2024 3 1 9 0 0 2) in
  let t_updated := mk_datetime 2024 3 1 9 30 0 123456 in
  let t_hashed := mk_datetime 2024 3 1 9 30 0 123460 in
  let t_signed := mk_datetime 2024 3 1 9 30 0 123463 in
  let w := run [upload; UpdateDocumentStatus "doc-1" "published" cu
                          t_updated t_hashed t_signed] (empty_world None) in
  ∃ d digest,
    find_one (by_id "doc-1") (documents (db w)) = Some d
    ∧ get d "content" = VStr content
    ∧ get d "signed_by" = VStr "user-1"
    ∧ get d "signed_at" = VDate t_signed
    ∧ get d "signature_hash" = VStr digest
    ∧ digest = create_document_hash content "user-1" t_hashed
    ∧ create_document_hash content "user-1" t_signed ≠ digest.
Proof.
  intros cu content upload t_updated t_hashed t_signed w.
  eexists. eexists. repeat (split; [reflexivity|]).
  vm_compute. discriminate.
Qed.

(** ** What a request does to the documents *)

Lemma publishes_target r w i :
  publishes r w i = true →
  ∃ doc_id cu n1 n2 n3,
    r = UpdateDocumentStatus doc_id DocumentStatus.PUBLISHED cu n1 n2 n3
    ∧ target doc_id (documents (db w)) = Some i.
Proof.
  destruct r; simpl; try discriminate.
  rewrite andb_true_iff, bool_decide_eq_true.
  intros [Hs Ht]. apply String.eqb_eq in Hs as ->. eauto 10.
Qed.

Ltac case_handler :=
  repeat match goal with
         | |- context [ if ?b then _ else _ ] => destruct b eqn:?
         | |- context [ match ?x with _ => _ end ] => destruct x eqn:?
         end.

Lemma new_document_unsigned (d : dict) :
  d !! "signature_hash" = None → d !! "signed_by" = None →
  d !! "signed_at" = None → d !! "status" = Some (VStr DocumentStatus.DRAFT) →
  unsigned d ∧ ¬ is_published d.
Proof.
  intros H1 H2 H3 H4. split.
  - unfold unsigned, signature_fields, get. repeat constructor.
    + by rewrite H1.
    + by rewrite H2.
    + by rewrite H3.
  - unfold is_published, get. by rewrite H4.
Qed.

(** A request leaves the documents as they are, or appends a draft
    without signature, or is a successful status request. *)
Lemma handle_documents (r : request) (w : world) :
  (documents (db (handle r w)) = documents (db w)
   ∧ ∀ i, publishes r w i = false)
  ∨ (∃ d, documents (db (handle r w)) = documents (db w) ++ [d]
          ∧ unsigned d ∧ ¬ is_published d
          ∧ ∀ i, publishes r w i = false)
  ∨ (∃ doc_id status cu n1 n2 n3 doc,
       r = UpdateDocumentStatus doc_id status cu n1 n2 n3
       ∧ status ∈ valid_statuses
       ∧ find_one (by_id doc_id) (documents (db w)) = Some doc
       ∧ documents (db (handle r w))
         = update_one (by_id doc_id) (written status doc cu n1 n2 n3)
             (documents (db w))).
Proof.
  destruct r; simpl.
  - left. split; [|done]. unfold register. by case_handler.
  - left. split; [|done]. unfold login. by case_handler.
  - left. by split.
  - left. by split.
  - left. by split.
  - left. split; [|done]. unfold get_clinic. by case_handler.
  - left. by split.
  - unfold generate_document.
    destruct (not_found _); [left; by split|].
    destruct (generate_ai_document _ _ _ _ _); [|left; by split].
    right. left. eexists. split; [reflexivity|].
    split; [|done]. by apply new_document_unsigned.
  - left. by split.
  - left. split; [|done]. unfold get_document. by case_handler.
  - destruct (decide (status ∈ valid_statuses)) as [Hv|Hv].
    + destruct (find_one (by_id doc_id) (documents (db w))) as [doc|] eqn:F.
      * right. right. exists doc_id, status, current_user, now_updated,
          now_hashed, now_signed, doc.
        rewrite (update_document_status_found _ _ _ _ _ _ _ _ Hv F). done.
      * left. rewrite (update_document_status_missing _ _ _ _ _ _ _ Hv F).
        split; [done|]. intros i. apply target_None in F. rewrite F.
        apply andb_false_r.
    + left. rewrite (update_document_status_invalid _ _ _ _ _ _ _ Hv).
      split; [done|]. intros i.
      destruct (String.eqb status DocumentStatus.PUBLISHED) eqn:E; [|done].
      apply String.eqb_eq in E as ->. exfalso. apply Hv.
      by apply (bool_decide_unpack _).
  - left. split; [|done]. unfold audit_document_endpoint. by case_handler.
  - left. split; [|done]. unfold post_risks. by case_handler.
  - left. by split.
  - unfold upload_document.
    destruct (_ <? _); [left; by split|].
    destruct (try_except _ _); [|left; by split].
    right. left. eexists. split; [reflexivity|].
    split; [|done]. by apply new_document_unsigned.
  - left. split; [|done]. unfold save_settings. by case_handler.
Qed.

Lemma written_keys_sub status (k : string) :
  k ∉ status_keys → k ∉ written_keys status.
Proof.
  unfold status_keys, written_keys, signature_fields.
  rewrite !list_elem_of_In.
  destruct (String.eqb status _); simpl; tauto.
Qed.

(** One request, one stored document: it stays where it is, and it keeps
    every field that the request does not write. *)
Lemma handle_lookup (r : request) (w : world) (i : nat) (d : dict) :
  documents (db w) !! i = Some d →
  ∃ d', documents (db (handle r w)) !! i = Some d'
        ∧ ((d' = d ∧ ∀ j, j = i → publishes r w j = false)
           ∨ ∃ doc_id status cu n1 n2 n3,
               r = UpdateDocumentStatus doc_id status cu n1 n2 n3
               ∧ status ∈ valid_statuses
               ∧ target doc_id (documents (db w)) = Some i
               ∧ d' = written status d cu n1 n2 n3 ∪ d).
Proof.
  intros Hd.
  destruct (handle_documents r w)
    as [[-> Hp]|[(x & -> & _ & _ & Hp)|
                 (doc_id & status & cu & n1 & n2 & n3 & doc & -> & Hv & F & ->)]].
  - exists d. split; [done|]. left. split; [done|]. by intros j _.
  - exists d. split; [by apply lookup_app_l_Some|].
    left. split; [done|]. by intros j _.
  - destruct (decide (target doc_id (documents (db w)) = Some i)) as [T|T].
    + destruct (target_Some _ _ _ T) as (d0 & Hd0 & F0).
      assert (d0 = d) as -> by congruence.
      assert (doc = d) as -> by congruence.
      eexists. split; [by apply update_one_hit|].
      right. eauto 12.
    + exists d. split; [by rewrite update_one_miss|].
      left. split; [done|]. intros j ->. simpl.
      rewrite bool_decide_eq_false_2 by done. apply andb_false_r.
Qed.

(** A position that a request fills holds an unsigned draft. *)
Lemma handle_lookup_new (r : request) (w : world) (i : nat) (d' : dict) :
  documents (db w) !! i = None →
  publishes r w i = false
  ∧ (documents (db (handle r w)) !! i = Some d' →
     unsigned d' ∧ ¬ is_published d').
Proof.
  intros Hn. split.
  - destruct (publishes r w i) eqn:E; [|done].
    apply publishes_target in E as (? & ? & ? & ? & ? & _ & T).
    apply target_Some in T as (? & ? & _). congruence.
  - destruct (handle_documents r w)
      as [[-> Hp]|[(x & -> & Hu & Hnp & Hp)|
                   (doc_id & status & cu & n1 & n2 & n3 & doc & -> & Hv & F & ->)]].
    + congruence.
    + intros H. apply lookup_app_Some in H as [H|[_ H]]; [congruence|].
      apply list_lookup_singleton_Some in H as [_ <-]. done.
    + intros H. apply lookup_lt_Some in H. rewrite update_one_length in H.
      apply lookup_ge_None in Hn. lia.
Qed.

Lemma handle_keeps (r : request) (w : world) (i : nat) (d : dict) :
  documents (db w) !! i = Some d →
  ∃ d', documents (db (handle r w)) !! i = Some d'
        ∧ ∀ k, k ∉ status_keys → d' !! k = d !! k.
Proof.
  intros Hd. destruct (handle_lookup r w i d Hd) as (d' & Hd' & H).
  exists d'. split; [done|].
  destruct H as [[-> _]|(doc_id & status & cu & n1 & n2 & n3 & _ & _ & _ & ->)].
  - done.
  - intros k Hk. apply lookup_union_r, written_other.
    by apply written_keys_sub.
Qed.

Lemma run_cons (r : request) (reqs : list request) (w : world) :
  run (r :: reqs) w = run reqs (handle r w).
Proof. done. Qed.

Lemma run_keeps (reqs : list request) (w : world) (i : nat) (d : dict) :
  documents (db w) !! i = Some d →
  ∃ d', documents (db (run reqs w)) !! i = Some d'
        ∧ ∀ k, k ∉ status_keys → d' !! k = d !! k.
Proof.
  revert w d. induction reqs as [|r reqs IH]; intros w d Hd.
  - exists d. by split.
  - rewrite run_cons.
    destruct (handle_keeps r w i d Hd) as (d1 & Hd1 & K1).
    destruct (IH _ _ Hd1) as (d' & Hd' & K').
    exists d'. split; [done|]. intros k Hk.
    by rewrite K', K1.
Qed.

(** C8: a status request keeps every document in its place and changes,
    in the document it writes to, nothing but [status], [updated_at] and,
    when the target status is published, the three signature fields; and
    whatever requests follow the creation of a document, its content,
    title, category, jurisdiction, tags and version (and every field
    other than status, update time and signature) stay as they were. *)
Theorem C8_status_write_frame :
  (∀ doc_id status cu n1 n2 n3 w i d,
     documents (db w) !! i = Some d →
     ∃ d', documents (db (snd (update_document_status doc_id status cu
                                 n1 n2 n3 w))) !! i = Some d'
           ∧ ∀ k, k ∉ written_keys status → d' !! k = d !! k)
  ∧ (∀ reqs w i d,
       documents (db w) !! i = Some d →
       ∃ d', documents (db (run reqs w)) !! i = Some d'
             ∧ (∀ k, k ∈ ["content"; "title"; "category"; "jurisdiction";
                          "tags"; "version"] → d' !! k = d !! k)
             ∧ (∀ k, k ∉ status_keys → d' !! k = d !! k)).
Proof.
  split.
  - intros doc_id status cu n1 n2 n3 w i d Hd.
    destruct (handle_lookup (UpdateDocumentStatus doc_id status cu n1 n2 n3)
                w i d Hd) as (d' & Hd' & H).
    exists d'. split; [done|].
    destruct H as [[-> _]|(? & ? & ? & ? & ? & ? & E & _ & _ & ->)]; [done|].
    injection E as <- <- <- <- <- <-.
    intros k Hk. by apply lookup_union_r, written_other.
  - intros reqs w i d Hd.
    destruct (run_keeps reqs w i d Hd) as (d' & Hd' & K).
    exists d'. split; [done|]. split; [|done].
    intros k Hk. apply K. intros Hu.
    apply list_elem_of_In in Hk, Hu.
    unfold status_keys, signature_fields in Hu. simpl in Hk, Hu.
    intuition (subst; discriminate).
Qed.

Lemma C8_status_write_frame_witness :
  let cu : dict := {[ "id" := VStr "user-1" ]} in
  let t := mk_datetime 2024 3 1 9 0 0 0 in
  let w :=
    run [UploadDocument (mk_UploadFile 11 "text/plain" "notes.txt")
           "clinic-1" "policy" "national" cu (Return "Wash hands.") "doc-1"
           t t] (empty_world None) in
  let reqs := [UpdateDocumentStatus "doc-1" "published" cu t t t;
               UpdateDocumentStatus "doc-1" "archived" cu t t t] in
  ∃ d', documents (db (run reqs w)) !! 0%nat = Some d'
        ∧ d' !! "content" = Some (VStr "Wash hands.")
        ∧ d' !! "version" = Some (VInt 1).
Proof.
  intros cu t w reqs.
  eassert (documents (db w) !! 0%nat = Some _) as E by reflexivity.
  destruct C8_status_write_frame as [_ H].
  destruct (H reqs w 0%nat _ E) as (d' & Hd' & Hk & _).
  exists d'. split; [exact Hd'|]. split.
  - rewrite Hk; [reflexivity|]. by apply (bool_decide_unpack _).
  - rewrite Hk; [reflexivity|]. by apply (bool_decide_unpack _).
Defined.

(** ** Signatures along a run *)

Lemma unsigned_not_signed (d : dict) : unsigned d → ¬ signed d.
Proof.
  unfold unsigned, signed, signature_fields, populated.
  intros Hu Hs. inversion Hu; subst. inversion Hs; subst. congruence.
Qed.

Lemma signature_fields_agree (d d' : dict) :
  (∀ k, k ∈ signature_fields → d' !! k = d !! k) →
  (signed d' ↔ signed d) ∧ (unsigned d' ↔ unsigned d).
Proof.
  intros H. unfold signed, unsigned, populated, get.
  rewrite !Forall_forall. split; split; intros A k Hk.
  - rewrite <- H by done. by apply A.
  - rewrite H by done. by apply A.
  - rewrite <- H by done. by apply A.
  - rewrite H by done. by apply A.
Qed.

Lemma written_publish_signed (doc cu d : dict) n1 n2 n3 :
  has_id cu →
  let d' := written DocumentStatus.PUBLISHED doc cu n1 n2 n3 ∪ d in
  signed d' ∧ is_published d'.
Proof.
  intros Hs d'. subst d'.
  destruct (written_signature doc cu n1 n2 n3) as (H1 & H2 & H3).
  destruct (written_status DocumentStatus.PUBLISHED doc cu n1 n2 n3)
    as [H4 _].
  split.
  - unfold signed, signature_fields, populated, get.
    repeat constructor.
    + by rewrite (lookup_union_Some_l _ _ _ _ H1).
    + by rewrite (lookup_union_Some_l _ _ _ _ H2).
    + by rewrite (lookup_union_Some_l _ _ _ _ H3).
  - unfold is_published, get. by rewrite (lookup_union_Some_l _ _ _ _ H4).
Qed.

Lemma written_other_status (status : string) (doc cu d : dict) n1 n2 n3 :
  status ≠ DocumentStatus.PUBLISHED →
  let d' := written status doc cu n1 n2 n3 ∪ d in
  (∀ k, k ∈ signature_fields → d' !! k = d !! k) ∧ ¬ is_published d'.
Proof.
  intros Hne d'. subst d'. split.
  - intros k Hk. apply lookup_union_r, written_other.
    unfold written_keys.
    destruct (String.eqb status _) eqn:E;
      [by apply String.eqb_eq in E|].
    intros Hin. apply list_elem_of_In in Hk, Hin.
    unfold signature_fields in Hk. simpl in Hk, Hin.
    intuition (subst; discriminate).
  - destruct (written_status status doc cu n1 n2 n3) as [H4 _].
    unfold is_published, get. rewrite (lookup_union_Some_l _ _ _ _ H4).
    simpl. congruence.
Qed.

(** One request and one stored document: its signature fields are
    populated afterwards exactly when they were before or the request
    publishes it; it is published afterwards only if signed. *)
Lemma handle_signed (r : request) (w : world) (i : nat) (d : dict) :
  authenticated r →
  documents (db w) !! i = Some d →
  ∃ d', documents (db (handle r w)) !! i = Some d'
        ∧ (signed d' ↔ signed d ∨ publishes r w i = true)
        ∧ (signed d ∨ unsigned d → signed d' ∨ unsigned d')
        ∧ ((is_published d → signed d) → is_published d' → signed d').
Proof.
  intros Ha Hd. destruct (handle_lookup r w i d Hd) as (d' & Hd' & H).
  exists d'. split; [done|].
  destruct H as [[-> Hp]|(doc_id & status & cu & n1 & n2 & n3 & -> & Hv & T & ->)].
  - rewrite (Hp i eq_refl). split; [|split]; [|done..].
    split; [by left|]. by intros [?|?].
  - simpl. rewrite (bool_decide_eq_true_2 _ T), andb_true_r.
    destruct (String.eqb status DocumentStatus.PUBLISHED) eqn:E.
    + apply String.eqb_eq in E as ->.
      destruct (written_publish_signed d cu d n1 n2 n3 Ha) as [Hs _].
      split; [|split]; [|by left|done]. split; [by right|done].
    + assert (status ≠ DocumentStatus.PUBLISHED) as Hne.
      { intros ->. by rewrite String.eqb_refl in E. }
      destruct (written_other_status status d cu d n1 n2 n3 Hne) as [Hk Hnp].
      destruct (signature_fields_agree _ _ Hk) as [Hs Hu].
      split; [|split].
      * rewrite Hs. split; [by left|]. by intros [?|?].
      * rewrite Hs, Hu. done.
      * done.
Qed.

Lemma handle_well_signed (r : request) (w : world) :
  authenticated r → well_signed w → well_signed (handle r w).
Proof.
  intros Ha Hw i d' Hd'.
  destruct (documents (db w) !! i) as [d|] eqn:Hd.
  - destruct (handle_signed r w i d Ha Hd) as (d1 & Hd1 & _ & H2 & H3).
    assert (d1 = d') as -> by congruence.
    destruct (Hw i d Hd) as [A B]. split; [by apply H2 | by apply H3].
  - destruct (handle_lookup_new r w i d' Hd) as [_ H].
    destruct (H Hd') as [Hu Hnp]. split; [by right | done].
Qed.

Lemma run_well_signed (reqs : list request) (w : world) :
  Forall authenticated reqs → well_signed w → well_signed (run reqs w).
Proof.
  revert w. induction reqs as [|r reqs IH]; intros w Ha Hw; [done|].
  inversion Ha; subst. rewrite run_cons. apply IH; [done|].
  by apply handle_well_signed.
Qed.

Lemma run_signed (reqs : list request) (w : world) (i : nat) (d' : dict) :
  Forall authenticated reqs →
  documents (db (run reqs w)) !! i = Some d' →
  signed d' ↔
    (∃ d, documents (db w) !! i = Some d ∧ signed d)
    ∨ published_in reqs w i = true.
Proof.
  revert w. induction reqs as [|r reqs IH]; intros w Ha Hd'.
  - simpl in *. split.
    + intros Hs. left. eauto.
    + intros [(d & Hd & Hs)|?]; [|done]. congruence.
  - inversion Ha as [|? ? Har Hareqs]; subst. rewrite run_cons in Hd'.
    rewrite (IH _ Hareqs Hd'). simpl. rewrite orb_true_iff.
    destruct (documents (db w) !! i) as [d|] eqn:Hd.
    + destruct (handle_signed r w i d Har Hd) as (d1 & Hd1 & H1 & _).
      rewrite Hd1. split.
      * intros [(x & [= <-] & Hs)|Hp]; [|by right; right].
        apply H1 in Hs as [Hs|Hp]; [left; eauto | by right; left].
      * intros [(x & [= <-] & Hs)|[Hp|Hp]].
        -- left. exists d1. split; [done|]. apply H1. by left.
        -- left. exists d1. split; [done|]. apply H1. by right.
        -- by right.
    + destruct (documents (db (handle r w)) !! i) as [d1|] eqn:Hd1.
      * destruct (handle_lookup_new r w i d1 Hd) as [Hp H].
        destruct (H Hd1) as [Hu _]. rewrite Hp. split.
        -- intros [(x & [= <-] & Hs)|?]; [|by right; right].
           by apply unsigned_not_signed in Hu.
        -- intros [(x & ? & _)|[?|?]]; [done..|by right].
      * destruct (handle_lookup_new r w i d' Hd) as [Hp _]. rewrite Hp.
        split.
        -- intros [(x & ? & _)|?]; [done|by right; right].
        -- intros [(x & ? & _)|[?|?]]; [done..|by right].
Qed.

(** C1 (amended): along every run of authenticated requests from the
    empty store, the three signature fields of a stored document are
    populated together or null together; they are populated exactly when
    some request of the run wrote the status published to that document,
    and a published document has them populated.  A status request with
    another target leaves the signature fields of every document as they
    were: null if it was never published, the last signature otherwise. *)
Theorem C1_signature_tracks_publication :
  (∀ key reqs i d,
     Forall authenticated reqs →
     documents (db (run reqs (empty_world key))) !! i = Some d →
     (signed d ∨ unsigned d)
     ∧ (is_published d → signed d)
     ∧ (signed d ↔ published_in reqs (empty_world key) i = true))
  ∧ (∀ doc_id status cu n1 n2 n3 w i d,
       status ≠ DocumentStatus.PUBLISHED →
       documents (db w) !! i = Some d →
       ∃ d', documents (db (snd (update_document_status doc_id status cu
                                   n1 n2 n3 w))) !! i = Some d'
             ∧ ∀ k, k ∈ signature_fields → d' !! k = d !! k).
Proof.
  split.
  - intros key reqs i d Ha Hd.
    assert (well_signed (empty_world key)) as W0.
    { intros j x Hx. simpl in Hx. by rewrite lookup_nil in Hx. }
    destruct (run_well_signed reqs _ Ha W0 i d Hd) as [A B].
    split; [done|]. split; [done|].
    rewrite (run_signed reqs _ i d Ha Hd). split; [|by right].
    intros [(x & Hx & _)|?]; [|done]. simpl in Hx. by rewrite lookup_nil in Hx.
  - intros doc_id status cu n1 n2 n3 w i d Hne Hd.
    destruct (handle_lookup (UpdateDocumentStatus doc_id status cu n1 n2 n3)
                w i d Hd) as (d' & Hd' & H).
    exists d'. split; [done|].
    destruct H as [[-> _]|(? & ? & ? & ? & ? & ? & E & _ & _ & ->)]; [done|].
    injection E as <- <- <- <- <- <-.
    by apply written_other_status.
Qed.

Lemma C1_signature_tracks_publication_witness :
  let cu : dict := {[ "id" := VStr "user-1" ]} in
  let t := mk_datetime 2024 3 1 9 0 0 0 in
  let reqs :=
    [UploadDocument (mk_UploadFile 11 "text/plain" "notes.txt")
       "clinic-1" "policy" "national" cu (Return "Wash hands.") "doc-1" t t;
     UpdateDocumentStatus "doc-1" "published" cu t t t;
     UpdateDocumentStatus "doc-1" "archived" cu t t t] in
  ∃ d, documents (db (run reqs (empty_world None))) !! 0%nat = Some d
       ∧ signed d
       ∧ published_in reqs (empty_world None) 0 = true.
Proof.
  intros cu t reqs.
  eassert (documents (db (run reqs (empty_world None))) !! 0%nat = Some _)
    as E by reflexivity.
  assert (Forall authenticated reqs) as Ha.
  { repeat constructor; vm_compute; discriminate. }
  destruct C1_signature_tracks_publication as [H _].
  destruct (H None reqs 0%nat _ Ha E) as (_ & _ & Hs).
  eexists. split; [exact E|]. split; [|reflexivity].
  apply Hs. reflexivity.
Defined.

(** C1 as stated fails: a document that was published and then moved
    back to draft keeps its signature fields. *)
Lemma C1_counterexample :
  let cu : dict := {[ "id" := VStr "user-1" ]} in
  let t := mk_datetime 2024 3 1 9 0 0 0 in
  let reqs :=
    [UploadDocument (mk_UploadFile 11 "text/plain" "notes.txt")
       "clinic-1" "policy" "national" cu (Return "Wash hands.") "doc-1" t t;
     UpdateDocumentStatus "doc-1" "published" cu t t t;
     UpdateDocumentStatus "doc-1" "draft" cu t t t] in
  ∃ d, documents (db (run reqs (empty_world None))) !! 0%nat = Some d
       ∧ get d "status" = VStr "draft"
       ∧ signed d
       ∧ ¬ (signed d ↔ is_published d).
Proof.
  intros cu t reqs. eexists. split; [reflexivity|].
  split; [reflexivity|].
  split.
  - repeat constructor; vm_compute; discriminate.
  - intros [H _].
    assert (Hp := H ltac:(repeat constructor; vm_compute; discriminate)).
    vm_compute in Hp. discriminate.
Qed.

(** ** Sorted and capped cursors *)

#[global] Instance key_le_total : Total key_le.
Proof. intros [a1 a2] [b1 b2]. unfold key_le. simpl. lia. Qed.

#[global] Instance key_le_trans : Transitive key_le.
Proof. intros [a1 a2] [b1 b2] [c1 c2]. unfold key_le. simpl. lia. Qed.

#[global] Instance desc_total (k : string) : Total (desc k).
Proof. intros d1 d2. unfold desc. apply key_le_total. Qed.

#[global] Instance desc_trans (k : string) : Transitive (desc k).
Proof.
  intros d1 d2 d3 H12 H23. unfold desc in *. by etrans.
Qed.

Lemma sort_desc_sorted (k : string) (l : list dict) :
  StronglySorted (desc k) (sort_desc k l).
Proof. apply StronglySorted_merge_sort; apply _. Qed.

Lemma sort_desc_perm (k : string) (l : list dict) : sort_desc k l ≡ₚ l.
Proof. apply merge_sort_Permutation. Qed.

Lemma to_list_sorted (k : string) (n : nat) (l : list dict) :
  StronglySorted (desc k) l → StronglySorted (desc k) (to_list n l).
Proof.
  intros H. unfold to_list. rewrite <- (take_drop n l) in H.
  by apply StronglySorted_app_1_l in H.
Qed.

Lemma to_list_length (n : nat) (l : list dict) :
  length (to_list n l) = (n `min` length l)%nat.
Proof. unfold to_list. apply length_take. Qed.

Lemma to_list_all (n : nat) (l : list dict) :
  (length l ≤ n)%nat → to_list n l = l.
Proof. intros H. unfold to_list. by apply take_ge. Qed.

Lemma sorted_lookup {A} (R : relation A) (l : list A) (i j : nat) (a b : A) :
  StronglySorted R l → (i < j)%nat →
  l !! i = Some a → l !! j = Some b → R a b.
Proof.
  intros H. revert i j. induction H as [|x l Hs IH Hall]; intros i j Hij Ha Hb.
  - by rewrite lookup_nil in Ha.
  - destruct j as [|j]; [lia|]. simpl in Hb. destruct i as [|i]; simpl in Ha.
    + injection Ha as <-. rewrite Forall_forall in Hall. apply Hall.
      by eapply list_elem_of_lookup_2.
    + apply (IH i j); [lia|done..].
Qed.

(** On two risks that carry integer scores, the cursor order is the
    order of the scores, larger first. *)
Lemma desc_risk_score (a b : dict) :
  scored a → scored b →
  (desc "risk_score" a b ↔ risk_score b ≤ risk_score a).
Proof.
  intros [x Hx] [y Hy]. unfold desc, risk_score, get.
  rewrite Hx, Hy. unfold key_le. simpl. lia.
Qed.

Lemma RiskResponse_keeps (d : dict) (k : string) :
  k ∉ ["status"; "owner_id"; "linked_docs"; "mitigation_plan"] →
  RiskResponse d !! k = d !! k.
Proof.
  intros H. unfold RiskResponse.
  repeat (rewrite lookup_union_l;
          [|apply lookup_singleton_ne; intros <-; apply H;
            by apply (bool_decide_unpack _)]).
  done.
Qed.

Lemma RiskResponse_score (d : dict) :
  risk_score (RiskResponse d) = risk_score d
  ∧ (scored d → scored (RiskResponse d)).
Proof.
  assert (RiskResponse d !! "risk_score" = d !! "risk_score") as E.
  { apply RiskResponse_keeps. by apply (bool_decide_unpack _). }
  unfold risk_score, scored, get. by rewrite E.
Qed.

(** What [get_risks] returns, in terms of the cursor. *)
Lemma get_risks_cursor (clinic_id : option string) (cu : dict) (w : world) :
  get_risks clinic_id cu w
  = (Return (map RiskResponse
               (take 100 (sort_desc "risk_score"
                            (find (Fields (clinic_scope clinic_id cu))
                                  (risks (db w)))))), w).
Proof. done. Qed.

(** C4 (amended): [get_risks] returns the first 100 risks of the clinic
    scope in non-increasing order of [risk_score]: nothing but risks of
    the scope, all of them when the scope holds at most 100, and of two
    returned risks the earlier one has the larger or the same score. *)
Theorem C4_get_risks_sorted_and_capped
    (clinic_id : option string) (cu : dict) (w : world) :
  let scope := find (Fields (clinic_scope clinic_id cu)) (risks (db w)) in
  ∃ l,
    get_risks clinic_id cu w = (Return (map RiskResponse l), w)
    ∧ l = take 100 (sort_desc "risk_score" scope)
    ∧ l ⊆+ scope
    ∧ length l = (100 `min` length scope)%nat
    ∧ ((length scope ≤ 100)%nat → l ≡ₚ scope)
    ∧ (∀ i j a b,
         (i ≤ j)%nat →
         map RiskResponse l !! i = Some a →
         map RiskResponse l !! j = Some b →
         scored a → scored b → risk_score b ≤ risk_score a).
Proof.
  intros scope. exists (take 100 (sort_desc "risk_score" scope)).
  split; [apply get_risks_cursor|]. split; [done|].
  split; [|split; [|split]].
  - rewrite <- (sort_desc_perm "risk_score" scope) at 2.
    apply sublist_submseteq, sublist_take.
  - rewrite length_take. by rewrite (sort_desc_perm "risk_score" scope).
  - intros H. rewrite take_ge; [apply sort_desc_perm|].
    by rewrite (sort_desc_perm "risk_score" scope).
  - intros i j a b Hij Ha Hb Sa Sb.
    destruct (decide (i = j)) as [->|Hne].
    { assert (a = b) as -> by congruence. lia. }
    rewrite list_lookup_fmap in Ha, Hb.
    destruct (take 100 _ !! i) as [a0|] eqn:Ea; [|done].
    destruct (take 100 _ !! j) as [b0|] eqn:Eb; [|done].
    injection Ha as <-. injection Hb as <-.
    assert (desc "risk_score" a0 b0) as Hd.
    { eapply (sorted_lookup _ _ i j); [|lia|done..].
      apply (to_list_sorted _ 100), sort_desc_sorted. }
    unfold desc in Hd. unfold risk_score, scored, get in *.
    destruct Sa as [x Hx], Sb as [y Hy].
    rewrite RiskResponse_keeps in Hx, Hy |- *
      by (by apply (bool_decide_unpack _)).
    rewrite RiskResponse_keeps by (by apply (bool_decide_unpack _)).
    unfold get in Hd. rewrite Hx, Hy in Hd |- *.
    unfold key_le in Hd. simpl in Hd |- *. lia.
Qed.

Lemma C4_get_risks_sorted_and_capped_witness :
  let w := run [file_risk "clinic-1" 0 4 5; file_risk "clinic-2" 1 5 5;
                file_risk "clinic-1" 2 1 5; file_risk "clinic-1" 3 3 5]
             (empty_world None) in
  ∃ l, get_risks None sample_user w = (Return (map RiskResponse l), w)
       ∧ map risk_score (risks (db w)) = [20; 25; 5; 15]
       ∧ map risk_score l = [20; 15; 5]
       ∧ l ≡ₚ find (Fields {[ "clinic_id" := VStr "clinic-1" ]})
                   (risks (db w)).
Proof.
  intros w.
  destruct (C4_get_risks_sorted_and_capped None sample_user w)
    as (l & Hr & Hl & _ & _ & Hp & _).
  exists l. split; [exact Hr|]. split; [reflexivity|].
  split; [rewrite Hl; vm_compute; reflexivity|].
  apply Hp. vm_compute. lia.
Defined.

(** C4 as stated fails: of 101 risks of one clinic, 100 are returned. *)
Lemma C4_counterexample :
  let w := run (many_risks 101) (empty_world None) in
  let scope :=
    find (Fields {[ "clinic_id" := VStr "clinic-1" ]}) (risks (db w)) in
  ∃ l, get_risks (Some "clinic-1") sample_user w = (Return l, w)
       ∧ length scope = 101%nat
       ∧ length l = 100%nat
       ∧ ¬ (l ≡ₚ map RiskResponse scope).
Proof.
  intros w scope.
  assert (length scope = 101%nat) as Hs by (vm_compute; reflexivity).
  assert (length (take 100 (sort_desc "risk_score" scope)) = 100%nat) as Hl.
  { rewrite length_take, (sort_desc_perm "risk_score" scope), Hs. done. }
  exists (map RiskResponse (take 100 (sort_desc "risk_score" scope))).
  split; [apply get_risks_cursor|].
  split; [exact Hs|].
  split; [by rewrite length_map|].
  intros Hp. apply Permutation_length in Hp.
  rewrite !length_map, Hl, Hs in Hp. discriminate.
Qed.

(** ** The cap of the listings *)

Lemma capped_intro (cursor : list dict) (R : dict → dict) :
  capped cursor (map R (take 100 cursor)) R.
Proof.
  unfold capped. split; [done|].
  rewrite length_map, length_take. split; [lia|]. split; [done|]. split.
  - intros i Hi. by rewrite list_lookup_fmap, lookup_take_lt.
  - intros i Hi. apply lookup_ge_None. rewrite length_map, length_take. lia.
Qed.

(** C9: each of the three listings answers with the first 100 entries of
    its cursor (the matching clinics in storage order; the matching
    documents, latest created first; the matching risks, highest score
    first), never with more than 100, and with exactly 100 when more
    than 100 entities match; the rest is left out and the request still
    succeeds, leaving the world as it was. *)
Theorem C9_listings_return_at_most_100 :
  (∀ cu w,
     ∃ l, get_user_clinics cu w = (Return l, w)
          ∧ capped (clinics_cursor cu w) l ClinicResponse)
  ∧ (∀ clinic_id status category cu w,
       ∃ l, get_documents clinic_id status category cu w = (Return l, w)
            ∧ capped (documents_cursor clinic_id status category cu w) l
                DocumentResponse
            ∧ documents_cursor clinic_id status category cu w
              ≡ₚ find (Fields (documents_query clinic_id status category cu))
                      (documents (db w)))
  ∧ (∀ clinic_id cu w,
       ∃ l, get_risks clinic_id cu w = (Return l, w)
            ∧ capped (risks_cursor clinic_id cu w) l RiskResponse
            ∧ risks_cursor clinic_id cu w
              ≡ₚ find (Fields (clinic_scope clinic_id cu)) (risks (db w))).
Proof.
  split; [|split].
  - intros cu w. eexists. split; [reflexivity|]. apply capped_intro.
  - intros clinic_id status category cu w. eexists.
    split; [reflexivity|]. split; [apply capped_intro|].
    apply sort_desc_perm.
  - intros clinic_id cu w. eexists.
    split; [reflexivity|]. split; [apply capped_intro|].
    apply sort_desc_perm.
Qed.

(** 101 stored risks of one clinic: 100 are listed. *)
Lemma C9_listings_return_at_most_100_witness :
  let w := run (many_risks 101) (empty_world None) in
  ∃ l, get_risks (Some "clinic-1") sample_user w = (Return l, w)
       ∧ length (risks (db w)) = 101%nat
       ∧ length (risks_cursor (Some "clinic-1") sample_user w) = 101%nat
       ∧ length l = 100%nat.
Proof.
  intros w.
  destruct C9_listings_return_at_most_100 as (_ & _ & H).
  destruct (H (Some "clinic-1") sample_user w)
    as (l & Hr & (_ & _ & Hl & _) & Hp).
  assert (length (risks_cursor (Some "clinic-1") sample_user w) = 101%nat)
    as Hc.
  { rewrite Hp. vm_compute. reflexivity. }
  exists l. split; [exact Hr|]. split; [vm_compute; reflexivity|].
  split; [exact Hc|]. rewrite Hl, Hc. reflexivity.
Defined.

(** ** Listing without a clinic *)

Lemma clinic_scope_unset (cu : dict) :
  truthy (get cu "clinic_id") = false → clinic_scope None cu = ∅.
Proof. intros H. unfold clinic_scope. simpl. by rewrite H. Qed.

Lemma set_if_other (k : string) (o : option string) (q : dict) (k' : string) :
  k ≠ k' → set_if k o q !! k' = q !! k'.
Proof.
  intros H. unfold set_if. destruct (truthy _); [|done].
  by rewrite lookup_insert_ne.
Qed.

Lemma listed_all (k : string) (R : dict → dict) (l : list dict) (d : dict) :
  (length l ≤ 100)%nat → d ∈ l → R d ∈ map R (take 100 (sort_desc k l)).
Proof.
  intros Hl Hd. apply list_elem_of_fmap_2.
  rewrite take_ge by (by rewrite (sort_desc_perm k l)).
  by rewrite (sort_desc_perm k l).
Qed.

(** C10: for a user whose [clinic_id] is unset (missing, null or empty)
    and a request without [clinic_id] parameter, the filter of
    [get_risks] is the empty dict and the listing is drawn from the risks
    of every clinic: the first 100 of all stored risks, highest score
    first.  The filter of [get_documents] never holds a [clinic_id]; when
    neither status nor category is given it is the empty dict as well and
    the listing is the first 100 of all stored documents, latest first.
    With at most 100 stored, every stored risk or document is listed,
    whatever its clinic. *)
Theorem C10_unset_clinic_lists_all_clinics (cu : dict) (w : world) :
  truthy (get cu "clinic_id") = false →
  clinic_scope None cu = ∅
  ∧ get_risks None cu w
    = (Return (map RiskResponse
                 (take 100 (sort_desc "risk_score" (risks (db w))))), w)
  ∧ get_documents None None None cu w
    = (Return (map DocumentResponse
                 (take 100 (sort_desc "created_at" (documents (db w))))), w)
  ∧ (∀ status category,
       documents_query None status category cu !! "clinic_id" = None
       ∧ get_documents None status category cu w
         = (Return (map DocumentResponse
                      (take 100 (documents_cursor None status category cu w))),
            w))
  ∧ ((length (risks (db w)) ≤ 100)%nat →
     ∀ d resp, d ∈ risks (db w) → fst (get_risks None cu w) = Return resp →
               RiskResponse d ∈ resp)
  ∧ ((length (documents (db w)) ≤ 100)%nat →
     ∀ d resp, d ∈ documents (db w) →
               fst (get_documents None None None cu w) = Return resp →
               DocumentResponse d ∈ resp).
Proof.
  intros Hu. pose proof (clinic_scope_unset cu Hu) as Hs.
  assert (get_risks None cu w
          = (Return (map RiskResponse
                       (take 100 (sort_desc "risk_score" (risks (db w))))), w))
    as Hr.
  { rewrite get_risks_cursor, Hs. by rewrite find_all. }
  assert (get_documents None None None cu w
          = (Return (map DocumentResponse
                       (take 100 (sort_desc "created_at"
                                    (documents (db w))))), w)) as Hd.
  { unfold get_documents, to_list. rewrite Hs. unfold set_if. simpl.
    by rewrite find_all. }
  split; [done|]. split; [done|]. split; [done|]. split; [|split].
  - intros status category. split; [|done].
    unfold documents_query. rewrite !set_if_other by done.
    by rewrite Hs.
  - intros Hl d resp Hin. rewrite Hr. simpl. intros [= <-].
    by apply listed_all.
  - intros Hl d resp Hin. rewrite Hd. simpl. intros [= <-].
    by apply listed_all.
Qed.

(** Two clinics file one risk each; a user of neither clinic lists
    both. *)
Lemma C10_unset_clinic_lists_all_clinics_witness :
  let w := run [file_risk "clinic-1" 0 4 5; file_risk "clinic-2" 1 2 2]
             (empty_world None) in
  ∃ resp, fst (get_risks None unaffiliated_user w) = Return resp
          ∧ map (fun d => get d "clinic_id") resp
            = [VStr "clinic-1"; VStr "clinic-2"]
          ∧ map risk_score resp = [20; 4].
Proof.
  intros w.
  destruct (C10_unset_clinic_lists_all_clinics unaffiliated_user w)
    as (_ & Hr & _); [reflexivity|].
  eexists. split; [rewrite Hr; reflexivity|].
  split; vm_compute; reflexivity.
Defined.

(** ** Titles *)

(** *** Positions in the subject *)
Lemma at_bol_app (pre s : chars) :
  ends_line pre → Re.at_bol (pre ++ s) (length pre) = true.
Proof.
  intros [->|H]; [done|].
  destruct (length pre) as [|n] eqn:E.
  - by destruct pre.
  - unfold Re.at_bol. rewrite lookup_app_l by lia.
    rewrite last_lookup, E in H. simpl in H. rewrite H.
    unfold eqc. by rewrite Ascii.eqb_refl.
Qed.

Lemma run_app_stop (cls : ascii → bool) (a b : chars) :
  Forall (fun c => cls c = true) a →
  (b = [] ∨ ∃ c b', b = c :: b' ∧ cls c = false) →
  Re.run cls (a ++ b) = length a.
Proof.
  intros Ha Hb. induction Ha as [|x a Hx Ha IH]; simpl.
  - destruct Hb as [->|(c & b' & -> & Hc)]; [done|]. simpl. by rewrite Hc.
  - by rewrite Hx, IH.
Qed.

Lemma try_down_first {A} (k : nat → option A) (lo extra : nat) (r : A) :
  k (lo + extra)%nat = Some r → Re.try_down k lo extra = Some r.
Proof. intros H. destruct extra; simpl; by rewrite H. Qed.

Lemma no_match_off_heading (s : chars) (q : nat) g :
  ¬ (Re.at_bol s q = true ∧ s !! q = Some "#"%char) →
  Re.match_here heading_re s q g = None.
Proof.
  intros H. unfold heading_re. simpl.
  destruct (Re.at_bol s q) eqn:B; [|done].
  assert (Re.run is_hash (drop q s) = 0%nat) as ->; [|done].
  destruct (drop q s) as [|c t] eqn:D; [done|]. simpl.
  destruct (is_hash c) eqn:Hc; [|done].
  exfalso. apply H. split; [done|].
  assert (s !! q = Some c) as ->.
  { rewrite <- (Nat.add_0_r q), <- lookup_drop, D. done. }
  unfold is_hash, eqc in Hc. apply Ascii.eqb_eq in Hc. by subst.
Qed.

Lemma match_rep (cls : ascii → bool) (lo : nat) (p' : list Re.item)
    (s : chars) (pos : nat) (g r : Re.mstate) (n : nat) :
  Re.run cls (drop pos s) = n → (lo ≤ n)%nat →
  Re.match_here p' s (pos + n) g = Some r →
  Re.match_here (Re.Rep cls lo :: p') s pos g = Some r.
Proof.
  intros Hn Hlo Hm. simpl. rewrite Hn.
  destruct (n <? lo)%nat eqn:E; [apply Nat.ltb_lt in E; lia|].
  apply try_down_first. by replace (lo + (n - lo))%nat with n by lia.
Qed.

Lemma Forall_is_hash_repeat (k : nat) :
  Forall (fun c => is_hash c = true) (repeat "#"%char k).
Proof. induction k; simpl; by constructor. Qed.

(** The pattern matches at the start of a heading line that carries
    text, and group 1 is the text up to the end of the line. *)
Lemma heading_match (pre sp text rest : chars) (k : nat) (c : ascii) (t : chars) :
  ends_line pre → (1 ≤ k)%nat →
  Forall (fun x => isspace x = true) sp →
  text = c :: t → isspace c = false → (sp = [] → is_hash c = false) →
  Forall (fun x => not_newline x = true) text →
  line_end rest →
  let s := pre ++ repeat "#"%char k ++ sp ++ text ++ rest in
  let a := (length pre + k + length sp)%nat in
  Re.match_here heading_re s (length pre) (Re.mk_mstate 0 0)
  = Some (Re.mk_mstate a (a + length text)).
Proof.
  intros Hpre Hk Hsp -> Hc Hh Htext Hrest s a.
  assert (drop (length pre) s = repeat "#"%char k ++ sp ++ (c :: t) ++ rest)
    as D1 by apply drop_app_length.
  assert (drop (length pre + k) s = sp ++ (c :: t) ++ rest) as D2.
  { subst s. rewrite app_assoc.
    replace (length pre + k)%nat with (length (pre ++ repeat "#"%char k))
      by (by rewrite length_app, repeat_length).
    apply drop_app_length. }
  assert (drop a s = (c :: t) ++ rest) as D3.
  { subst s a. rewrite !app_assoc. rewrite <- (app_assoc _ (c :: t) rest).
    replace (length pre + k + length sp)%nat
      with (length ((pre ++ repeat "#"%char k) ++ sp))
      by (by rewrite !length_app, repeat_length).
    apply drop_app_length. }
  assert (drop (a + length (c :: t)) s = rest) as D4.
  { rewrite <- drop_drop, D3. apply drop_app_length. }
  unfold heading_re.
  change (Re.match_here (Re.Bol :: ?p) s ?q ?g)
    with (if Re.at_bol s q then Re.match_here p s q g else None).
  assert (Re.at_bol s (length pre) = true) as ->
    by apply (at_bol_app pre _ Hpre).
  apply (match_rep _ _ _ _ _ _ _ k).
  { rewrite D1. rewrite run_app_stop; [by rewrite repeat_length| |].
    - rewrite Forall_forall. intros x Hx%list_elem_of_In%repeat_spec. by rewrite Hx.
    - right. destruct sp as [|x sp'].
      + exists c, (t ++ rest). split; [done|]. by apply Hh.
      + exists x, (sp' ++ (c :: t) ++ rest). split; [done|].
        apply Forall_cons in Hsp as [Hx _]. clear -Hx.
        by destruct x as [[] [] [] [] [] [] [] []]. }
  { done. }
  apply (match_rep _ _ _ _ _ _ _ (length sp)).
  { rewrite D2. apply run_app_stop; [done|]. right. eauto. }
  { lia. }
  change (Re.match_here (Re.Open :: ?p) s ?q ?g)
    with (Re.match_here p s q (Re.mk_mstate q (Re.g_end g))).
  fold a. apply (match_rep _ _ _ _ _ _ _ (length (c :: t))).
  { rewrite D3. apply run_app_stop; [done|].
    destruct Hrest as [->|Hr]; [by left|]. right.
    destruct rest as [|x r]; [done|]. simpl in Hr. injection Hr as ->.
    eauto. }
  { simpl. lia. }
  assert (s !! (a + length (c :: t))%nat = head rest) as E.
  { rewrite <- (Nat.add_0_r (a + _)), <- lookup_drop, D4. by destruct rest. }
  simpl Re.match_here. unfold Re.at_eol. simpl length in E. rewrite E.
  destruct Hrest as [-> | ->]; [done|].
  unfold eqc. by rewrite Ascii.eqb_refl.
Qed.


Lemma scan_no_heading (pre tail : chars) (b : bool) (q : nat) :
  line_starts_with_hash b pre = false → (q < length pre)%nat →
  ¬ (bol_at b (pre ++ tail) q = true ∧ (pre ++ tail) !! q = Some "#"%char).
Proof.
  revert b q. induction pre as [|c pre IH]; intros b q Hs Hq; simpl in Hq.
  - lia.
  - simpl in Hs. apply orb_false_iff in Hs as [H0 Hs].
    destruct q as [|q]; simpl.
    + intros [-> [= ->]]. done.
    + intros [Hb Hc]. apply (IH (eqc c LF) q Hs); [lia|].
      split; [|done]. destruct q as [|q]; simpl in *; done.
Qed.

Lemma search_from_eq (p : list Re.item) (s : chars) (pos fuel : nat) :
  Re.search_from p s pos fuel
  = match Re.match_here p s pos (Re.mk_mstate 0 0) with
    | Some g => Some (take (Re.g_end g - Re.g_start g) (drop (Re.g_start g) s))
    | None => match fuel with
              | O => None
              | S f => Re.search_from p s (S pos) f
              end
    end.
Proof. by destruct fuel. Qed.

Lemma search_from_skip (s : chars) (n pos fuel : nat) :
  (∀ q, (pos ≤ q < pos + n)%nat →
        Re.match_here heading_re s q (Re.mk_mstate 0 0) = None) →
  (n ≤ fuel)%nat →
  Re.search_from heading_re s pos fuel
  = Re.search_from heading_re s (pos + n) (fuel - n).
Proof.
  revert pos fuel. induction n as [|n IH]; intros pos fuel H Hn.
  - by rewrite Nat.add_0_r, Nat.sub_0_r.
  - destruct fuel as [|fuel]; [lia|]. rewrite search_from_eq.
    rewrite H by lia. rewrite IH; [|intros q Hq; apply H; lia|lia].
    f_equal; lia.
Qed.

Lemma search_from_none (s : chars) (pos fuel : nat) :
  (∀ q, (pos ≤ q ≤ pos + fuel)%nat →
        Re.match_here heading_re s q (Re.mk_mstate 0 0) = None) →
  Re.search_from heading_re s pos fuel = None.
Proof.
  revert pos. induction fuel as [|fuel IH]; intros pos H;
    rewrite search_from_eq.
  - by rewrite H by lia.
  - rewrite H by lia. apply IH. intros q Hq. apply H. lia.
Qed.

Lemma search_from_here (s : chars) (pos fuel : nat) (g : Re.mstate) :
  Re.match_here heading_re s pos (Re.mk_mstate 0 0) = Some g →
  Re.search_from heading_re s pos fuel
  = Some (take (Re.g_end g - Re.g_start g) (drop (Re.g_start g) s)).
Proof. intros H. by rewrite search_from_eq, H. Qed.

(** Without a line that begins with a hash, the pattern is found nowhere. *)
Lemma search_no_heading (s : chars) :
  line_starts_with_hash true s = false → Re.search heading_re s = None.
Proof.
  intros H. unfold Re.search. apply search_from_none. intros q Hq.
  apply no_match_off_heading.
  destruct (decide (q < length s)%nat) as [Hlt|Hge].
  - rewrite <- (app_nil_r s). apply (scan_no_heading s [] true q H Hlt).
  - intros [_ Hc]. apply lookup_lt_Some in Hc. lia.
Qed.

(** With a first heading line that carries text, group 1 is that text. *)
Lemma search_heading (pre sp text rest : chars) (k : nat) (c : ascii) (t : chars) :
  line_starts_with_hash true pre = false →
  ends_line pre → (1 ≤ k)%nat →
  Forall (fun x => isspace x = true) sp →
  text = c :: t → isspace c = false → (sp = [] → is_hash c = false) →
  Forall (fun x => not_newline x = true) text →
  line_end rest →
  Re.search heading_re (pre ++ repeat "#"%char k ++ sp ++ text ++ rest)
  = Some text.
Proof.
  intros Hno Hpre Hk Hsp Ht Hc Hh Htext Hrest.
  set (s := pre ++ repeat "#"%char k ++ sp ++ text ++ rest).
  unfold Re.search.
  rewrite (search_from_skip s (length pre) 0).
  - simpl. erewrite search_from_here;
      [|by apply (heading_match pre sp text rest k c t)].
    simpl. f_equal.
    replace (length pre + k + length sp + length text
             - (length pre + k + length sp))%nat with (length text) by lia.
    subst s. rewrite !app_assoc. rewrite <- (app_assoc _ text rest).
    replace (length pre + k + length sp)%nat
      with (length ((pre ++ repeat "#"%char k) ++ sp))
      by (by rewrite !length_app, repeat_length).
    rewrite drop_app_length. apply take_app_length.
  - intros q Hq. apply no_match_off_heading.
    apply (scan_no_heading pre _ true q Hno). lia.
  - subst s. rewrite length_app. lia.
Qed.

(** *** Stripping *)

Lemma lstrip_keep (c : ascii) (t : chars) :
  isspace c = false → lstrip (c :: t) = c :: t.
Proof. intros H. simpl. by rewrite H. Qed.

Lemma lstrip_split (l : chars) :
  ∃ sp, l = sp ++ lstrip l
        ∧ Forall (fun x => isspace x = true) sp
        ∧ (lstrip l = [] ∨ ∃ c t, lstrip l = c :: t ∧ isspace c = false).
Proof.
  induction l as [|c l (sp & E & Hsp & Hl)].
  - exists []. split; [done|]. split; [constructor|by left].
  - destruct (isspace c) eqn:Hc.
    + exists (c :: sp). simpl. rewrite Hc. split; [by f_equal|].
      split; [by constructor|done].
    + exists []. rewrite lstrip_keep by done. split; [done|].
      split; [constructor|]. right. eauto.
Qed.

Lemma lstrip_length (l : chars) : (length (lstrip l) ≤ length l)%nat.
Proof.
  induction l as [|c l IH]; simpl; [lia|]. destruct (isspace c); simpl; lia.
Qed.

Lemma lstrip_app_dots (x : chars) :
  lstrip (x ++ unstr "...") = lstrip x ++ unstr "...".
Proof.
  induction x as [|c x IH]; [done|]. simpl. by destruct (isspace c).
Qed.

Lemma rstrip_keep (y : chars) (c : ascii) :
  isspace c = false → rstrip (y ++ [c]) = y ++ [c].
Proof.
  intros H. unfold rstrip. rewrite rev_app_distr. simpl. rewrite H.
  simpl. by rewrite rev_involutive.
Qed.

Lemma rstrip_nil : rstrip [] = [].
Proof. done. Qed.

Lemma strip_app_dots (x : chars) :
  strip (x ++ unstr "...") = lstrip x ++ unstr "...".
Proof.
  unfold strip. rewrite lstrip_app_dots.
  change (unstr "...") with (unstr ".." ++ ["."%char]).
  rewrite app_assoc. by apply rstrip_keep.
Qed.

Lemma sub_empty_app (cls : ascii → bool) (a b : chars) :
  Re.sub_empty cls (a ++ b) = Re.sub_empty cls a ++ Re.sub_empty cls b.
Proof. unfold Re.sub_empty. induction a as [|c a IH]; simpl; [done|].
  destruct (negb (cls c)); simpl; by rewrite IH. Qed.

Lemma sub_empty_length (cls : ascii → bool) (a : chars) :
  (length (Re.sub_empty cls a) ≤ length a)%nat.
Proof.
  unfold Re.sub_empty. induction a as [|c a IH]; simpl; [lia|].
  destruct (negb (cls c)); simpl; lia.
Qed.

Lemma sub_empty_id (cls : ascii → bool) (a : chars) :
  Forall (fun c => cls c = false) a → Re.sub_empty cls a = a.
Proof.
  unfold Re.sub_empty. induction 1 as [|c a Hc Ha IH]; simpl; [done|].
  rewrite Hc. simpl. by rewrite IH.
Qed.

(** *** Lines that begin with hashes *)

Lemma drop_hashes_split (l : chars) :
  ∃ k, l = repeat "#"%char k ++ drop_hashes l
       ∧ (head l = Some "#"%char → (1 ≤ k)%nat)
       ∧ (∀ c t, drop_hashes l = c :: t → is_hash c = false).
Proof.
  induction l as [|c l (k & E & Hk & Hd)].
  - exists 0%nat. by repeat split.
  - simpl. destruct (is_hash c) eqn:Hc.
    + exists (S k). unfold is_hash, eqc in Hc. apply Ascii.eqb_eq in Hc as ->.
      simpl. split; [by f_equal|]. split; [lia|done].
    + exists 0%nat. split; [done|]. split.
      * intros [= ->]. done.
      * intros c' t [= <- <-]. done.
Qed.

Lemma no_newline_forall (l : chars) :
  LF ∉ l ↔ Forall (fun x => not_newline x = true) l.
Proof.
  rewrite Forall_forall. unfold not_newline, eqc. split.
  - intros H x Hx. apply negb_true_iff, Ascii.eqb_neq. by intros ->.
  - intros H Hin. specialize (H _ Hin). by rewrite Ascii.eqb_refl in H.
Qed.

Lemma title_of_heading (pre line rest : chars) :
  ends_line pre → line_starts_with_hash true pre = false →
  head line = Some "#"%char → LF ∉ line → line_end rest →
  heading_text line ≠ [] →
  title_chars (pre ++ line ++ rest)
  = strip (Re.sub_empty marker (heading_text line)).
Proof.
  intros Hpre Hno Hhead Hnl Hrest Htext.
  destruct (drop_hashes_split line) as (k & El & Hk & Hd).
  destruct (lstrip_split (drop_hashes line)) as (sp & Eb & Hsp & Hcase).
  unfold heading_text, strip in Htext |- *.
  destruct Hcase as [E|(c & t & E & Hc)]; [by rewrite E in Htext|].
  rewrite E in Eb |- *.
  assert (line = repeat "#"%char k ++ sp ++ c :: t) as Hline
    by (by rewrite El at 1; rewrite Eb).
  assert (Re.search heading_re (pre ++ line ++ rest) = Some (c :: t)) as Hs.
  { rewrite Hline, <- !app_assoc.
    apply (search_heading pre sp (c :: t) rest k c t); try done.
    - by apply Hk.
    - intros ->. by apply (Hd c t).
    - apply no_newline_forall. intros Hin. apply Hnl. rewrite Hline.
      apply elem_of_app. right. apply elem_of_app. by right. }
  unfold title_chars. rewrite Hs. unfold strip.
  by rewrite (lstrip_keep c t Hc).
Qed.

Lemma title_fallback (content : chars) :
  line_starts_with_hash true content = false →
  let sentence := split_head "." content in
  title_chars content
  = if (100 <? length sentence)%nat
    then lstrip (Re.sub_empty marker (take 100 sentence)) ++ unstr "..."
    else strip (Re.sub_empty marker sentence).
Proof.
  intros Hno sentence. unfold title_chars.
  rewrite (search_no_heading content Hno). fold sentence.
  destruct (100 <? length sentence)%nat; [|done].
  rewrite sub_empty_app.
  change (Re.sub_empty marker (unstr "...")) with (unstr "...").
  apply strip_app_dots.
Qed.

(** C6 (amended): when the first line that begins with a hash carries
    text after its hashes, the title is that text, trimmed, with the
    characters # * _ and backtick removed and trimmed again.  When no line
    begins with a hash and the first sentence is longer than 100
    characters, the title is the first 100 characters of the sentence
    with those characters removed and leading whitespace dropped,
    followed by the ellipsis: at most 103 characters, and the 100
    characters plus the ellipsis as they are when none of them is such a
    character and the first is not whitespace.  The content
    "# Cold Chain Policy", a line feed, "Body..." is given the title
    "Cold Chain Policy". *)
Theorem C6_title_extraction :
  (∀ pre line rest : chars,
     ends_line pre → line_starts_with_hash true pre = false →
     head line = Some "#"%char → LF ∉ line → line_end rest →
     heading_text line ≠ [] →
     title_chars (pre ++ line ++ rest)
     = strip (Re.sub_empty marker (heading_text line)))
  ∧ (∀ content : chars,
       line_starts_with_hash true content = false →
       let sentence := split_head "." content in
       (100 < length sentence)%nat →
       title_chars content
       = lstrip (Re.sub_empty marker (take 100 sentence)) ++ unstr "..."
       ∧ (length (title_chars content) ≤ 103)%nat
       ∧ (Forall (fun c => marker c = false) (take 100 sentence) →
          (∀ c, head sentence = Some c → isspace c = false) →
          title_chars content = take 100 sentence ++ unstr "..."
          ∧ length (title_chars content) = 103%nat))
  ∧ extract_title ("# Cold Chain Policy" +:+ nl +:+ "Body...")
    = "Cold Chain Policy".
Proof.
  split; [exact title_of_heading|]. split; [|by vm_compute].
  intros content Hno sentence Hlen.
  pose proof (title_fallback content Hno) as Ht. fold sentence in Ht.
  simpl in Ht. apply Nat.ltb_lt in Hlen as Hb. rewrite Hb in Ht.
  split; [done|]. split.
  - rewrite Ht, length_app.
    pose proof (lstrip_length (Re.sub_empty marker (take 100 sentence))).
    pose proof (sub_empty_length marker (take 100 sentence)).
    rewrite length_take in *. simpl. lia.
  - intros Hm Hsp. rewrite Ht, (sub_empty_id _ _ Hm).
    destruct sentence as [|c t] eqn:Es; [simpl in Hlen; lia|].
    change (take 100 (c :: t)) with (c :: take 99 t).
    rewrite (lstrip_keep c _ (Hsp c eq_refl)). split; [done|].
    rewrite length_app. simpl. rewrite length_take. simpl in Hlen. lia.
Qed.

Lemma C6_title_extraction_witness :
  title_chars (unstr "## 1. Cold Chain Policy" ++ LF :: unstr "Purpose...")
  = unstr "1. Cold Chain Policy"
  ∧ title_chars (unstr long_plain)
    = take 100 (unstr long_plain) ++ unstr "...".
Proof.
  destruct C6_title_extraction as (Ha & Hb & _). split.
  - etrans; [apply (Ha [] (unstr "## 1. Cold Chain Policy")
                        (LF :: unstr "Purpose..."))|].
    + by left.
    + reflexivity.
    + reflexivity.
    + apply (bool_decide_unpack _). vm_compute. exact I.
    + by right.
    + vm_compute. discriminate.
    + vm_compute. reflexivity.
  - destruct (Hb (unstr long_plain)) as (_ & _ & H).
    + reflexivity.
    + vm_compute. lia.
    + destruct H as [H _].
      * apply (bool_decide_unpack _). vm_compute. exact I.
      * intros c Hc. vm_compute in Hc. injection Hc as <-. reflexivity.
      * rewrite H. vm_compute. reflexivity.
Defined.

(** C6 as stated fails: a reply without heading whose first sentence has
    more than 100 characters and starts with bold text gets a title of
    96 characters plus the ellipsis. *)
Lemma C6_counterexample :
  line_starts_with_hash true (unstr long_marked) = false
  ∧ (100 < length (split_head "." (unstr long_marked)))%nat
  ∧ extract_title long_marked
    = "Hand Hygiene Policy applies to every member of the clinical and administrative team working on t..."
  ∧ String.length (extract_title long_marked) = 99%nat
  ∧ extract_title long_marked
    ≠ str (take 100 (unstr long_marked) ++ unstr "...").
Proof.
  split; [reflexivity|]. split; [vm_compute; lia|].
  split; [vm_compute; reflexivity|]. split; [vm_compute; reflexivity|].
  vm_compute. discriminate.
Qed.

(** ** Who makes a request *)

Lemma find_one_satisfies (q : query) (coll : list dict) (d : dict) :
  find_one q coll = Some d → satisfies q d = true.
Proof.
  unfold find_one, find. intros H.
  assert (Hin : d ∈ List.filter (satisfies q) coll).
  { destruct (List.filter _ coll) as [|x l]; simplify_eq/=. left. }
  by apply list_elem_of_In, filter_In in Hin as [_ Hsat].
Qed.

(** The user that [get_current_user] hands to a handler carries the id
    of the token, which is not null. *)
Lemma get_current_user_has_id (token : decoded) (w : world) (user : dict) :
  get_current_user token w = Return user → has_id user.
Proof.
  unfold get_current_user, has_id.
  destruct token as [user_id| |]; try discriminate.
  destruct (truthy user_id) eqn:T; simpl; [|discriminate].
  destruct (find_one _ _) as [u|] eqn:F; [|discriminate].
  case_bool_decide; [discriminate|]. intros [= <-].
  apply find_one_satisfies in F. unfold satisfies in F.
  rewrite matches_singleton in F. unfold get.
  destruct user_id; simpl in T; try discriminate T;
    apply bool_decide_eq_true in F; by rewrite F.
Qed.

Lemma get_current_user_has_id_witness :
  let w :=
    run [Register (mk_UserCreate "pat@example.com" "Pat" "Lee" "manager"
                     "secret" None) "user-1" "$2b$12$hash" "token-1"
           sample_time] (empty_world None) in
  ∃ user, get_current_user (Payload (VStr "user-1")) w = Return user
          ∧ has_id user.
Proof.
  intros w.
  eassert (get_current_user (Payload (VStr "user-1")) w = Return _) as E
    by reflexivity.
  eexists. split; [exact E|].
  exact (get_current_user_has_id _ _ _ E).
Defined.

(** ** The handlers, one by one and along a run *)


Lemma update_one_lookup (q : query) (upd : dict) (l : list dict) i d :
  l !! i = Some d →
  ∃ d', update_one q upd l !! i = Some d' ∧ (d' = d ∨ d' = upd ∪ d).
Proof.
  revert i. induction l as [|x l IH]; intros i H; [done|]. simpl.
  destruct (satisfies q x).
  - destruct i; simpl in *; [|eauto]. injection H as ->. eauto.
  - destruct i; simpl in *; [eauto|]. by apply IH.
Qed.

Ltac unfold_handlers :=
  unfold register, login, get_current_user_info, get_settings, create_clinic,
    get_clinic, get_user_clinics, generate_document, get_documents,
    get_document, update_document_status, audit_document_endpoint,
    post_risks, create_risk, get_risks, upload_document, save_settings.

Ltac grows :=
  simpl; first [ reflexivity | by apply prefix_app_r ].

Lemma handle_clinics (r : request) (w : world) :
  clinics (db w) `prefix_of` clinics (db (handle r w)).
Proof. destruct r; simpl; unfold_handlers; case_handler; grows. Qed.

Lemma handle_risks (r : request) (w : world) :
  risks (db w) `prefix_of` risks (db (handle r w)).
Proof. destruct r; simpl; unfold_handlers; case_handler; grows. Qed.

Lemma handle_audits (r : request) (w : world) :
  audits (db w) `prefix_of` audits (db (handle r w)).
Proof. destruct r; simpl; unfold_handlers; case_handler; grows. Qed.

Lemma handle_users (r : request) (w : world) :
  users (db (handle r w)) = users (db w)
  ∨ (∃ d, users (db (handle r w)) = users (db w) ++ [d])
  ∨ (∃ q v, users (db (handle r w))
            = update_one q {[ "clinic_id" := v ]} (users (db w))).
Proof.
  destruct r; simpl; unfold_handlers; case_handler; simpl;
    first [ by left | right; left; by eexists | right; right; by eexists _, _ ].
Qed.

Lemma handle_users_lookup (r : request) (w : world) i d :
  users (db w) !! i = Some d →
  ∃ d', users (db (handle r w)) !! i = Some d'
        ∧ ∀ k, k ≠ "clinic_id" → d' !! k = d !! k.
Proof.
  intros H. destruct (handle_users r w) as [->|[[x ->]|(q & v & ->)]].
  - eauto.
  - exists d. split; [by apply lookup_app_l_Some|done].
  - destruct (update_one_lookup q {[ "clinic_id" := v ]} _ i d H)
      as (d' & Hd' & [->| ->]); exists d' || eexists; (split; [done|]).
    + done.
    + intros k Hk. apply lookup_union_r. by apply lookup_singleton_ne.
Qed.

(** No sequence of requests of authenticated users removes, reorders or
    rewrites a stored clinic, risk or audit record; a stored user keeps
    its place and every field but [clinic_id]; a stored document keeps its
    place and its id. *)
Theorem nothing_is_deleted (reqs : list request) (w : world) :
  Forall authenticated reqs →
  clinics (db w) `prefix_of` clinics (db (run reqs w))
  ∧ risks (db w) `prefix_of` risks (db (run reqs w))
  ∧ audits (db w) `prefix_of` audits (db (run reqs w))
  ∧ (∀ i d, users (db w) !! i = Some d →
            ∃ d', users (db (run reqs w)) !! i = Some d'
                  ∧ ∀ k, k ≠ "clinic_id" → d' !! k = d !! k)
  ∧ (∀ i d, documents (db w) !! i = Some d →
            ∃ d', documents (db (run reqs w)) !! i = Some d'
                  ∧ d' !! "id" = d !! "id").
Proof.
  intros _. revert w. induction reqs as [|r reqs IH]; intros w.
  - simpl. repeat split; eauto.
  - rewrite run_cons. destruct (IH (handle r w)) as (Hc & Hr & Ha & Hu & Hd).
    split; [by etrans; [apply handle_clinics|]|].
    split; [by etrans; [apply handle_risks|]|].
    split; [by etrans; [apply handle_audits|]|].
    split.
    + intros i d Hi.
      destruct (handle_users_lookup r w i d Hi) as (d1 & H1 & K1).
      destruct (Hu i d1 H1) as (d' & H' & K').
      exists d'. split; [done|]. intros k Hk. by rewrite K', K1.
    + intros i d Hi.
      destruct (handle_keeps r w i d Hi) as (d1 & H1 & K1).
      destruct (Hd i d1 H1) as (d' & H' & K').
      exists d'. split; [done|]. rewrite K', K1; [done|].
      by apply (bool_decide_unpack _).
Qed.

(** *** Filters *)

Lemma field_matches_get (d : dict) (k : string) (v : value) :
  field_matches d k v = true ↔ get d k = v.
Proof.
  unfold field_matches, get.
  destruct v; rewrite bool_decide_eq_true;
    destruct (d !! k) as [x|]; simpl; intuition congruence.
Qed.

Lemma matches_get (q d : dict) :
  matches q d = true ↔ ∀ k v, q !! k = Some v → get d k = v.
Proof.
  unfold matches. rewrite forallb_forall. split.
  - intros H k v Hk. apply field_matches_get.
    apply (H (k, v)). by apply list_elem_of_In, elem_of_map_to_list.
  - intros H [k v] Hin. simpl. apply field_matches_get, H.
    by apply elem_of_map_to_list, list_elem_of_In.
Qed.

Lemma elem_of_find (q : query) (coll : list dict) (d : dict) :
  d ∈ find q coll ↔ d ∈ coll ∧ satisfies q d = true.
Proof. unfold find. by rewrite !list_elem_of_In, filter_In. Qed.

Lemma find_one_app_new (q : query) (l : list dict) (d : dict) :
  find_one q l = None →
  find_one q (l ++ [d]) = if satisfies q d then Some d else None.
Proof.
  unfold find_one, find. rewrite List.filter_app. simpl.
  destruct (List.filter (satisfies q) l); [|done]. intros _.
  simpl. by destruct (satisfies q d).
Qed.

Lemma find_one_app_old (q : query) (l l' : list dict) (d : dict) :
  find_one q l = Some d → find_one q (l ++ l') = Some d.
Proof.
  unfold find_one, find. rewrite List.filter_app.
  by destruct (List.filter (satisfies q) l).
Qed.

Lemma find_one_elem (q : query) (l : list dict) (d : dict) :
  d ∈ l → satisfies q d = true → ∃ x, find_one q l = Some x.
Proof.
  intros Hin Hs. destruct (find_one q l) eqn:F; [eauto|].
  apply find_one_None in F. rewrite Forall_forall in F.
  specialize (F d Hin). congruence.
Qed.

Lemma found_not_empty (k : string) (v : value) (l : list dict) (d : dict) :
  v ≠ VNone → find_one (Fields {[ k := v ]}) l = Some d →
  not_found (Some d) = false ∧ d !! k = Some v.
Proof.
  intros Hv F. apply find_one_satisfies in F. unfold satisfies in F.
  rewrite matches_singleton in F.
  assert (d !! k = Some v) as E.
  { destruct v; try done; by apply bool_decide_eq_true in F. }
  split; [|done]. simpl. apply bool_decide_eq_false. intros ->.
  by rewrite lookup_empty in E.
Qed.

(** *** Accounts *)

Lemma satisfies_field (k : string) (v : value) (d : dict) :
  d !! k = Some v → v ≠ VNone → satisfies (Fields {[ k := v ]}) d = true.
Proof.
  intros H Hv. unfold satisfies. rewrite matches_singleton.
  apply field_matches_get. unfold get. by rewrite H.
Qed.

Lemma register_refused (u : UserCreate) i h t n (w : world) :
  registered (uc_email u) w →
  register u i h t n w
  = (Raise (HTTPException 400 "Email already registered"), w).
Proof.
  intros (d & Hin & He). unfold register.
  destruct (find_one_elem (Fields {[ "email" := VStr (uc_email u) ]})
              (users (db w)) d Hin) as [x F].
  { by apply satisfies_field. }
  rewrite F.
  assert (VStr (uc_email u) ≠ VNone) as Hv by done.
  by destruct (found_not_empty _ _ _ _ Hv F) as [-> _].
Qed.

Lemma register_registers (u : UserCreate) i h t n (w : world) :
  registered (uc_email u) (snd (register u i h t n w)).
Proof.
  unfold register.
  destruct (find_one _ (users (db w))) as [x|] eqn:F; simpl.
  - assert (VStr (uc_email u) ≠ VNone) as Hv by done.
    destruct (found_not_empty _ _ _ _ Hv F) as [E Hx].
    simpl in E. rewrite E. simpl. exists x. split; [|done].
    assert (x ∈ find (Fields {[ "email" := VStr (uc_email u) ]})
                  (users (db w))) as Hin.
    { unfold find_one in F. destruct (find _ _); simplify_eq/=. left. }
    by apply elem_of_find in Hin as [? _].
  - eexists. split; [apply elem_of_app; right; left|]. done.
Qed.

Lemma handle_registered (e : string) (r : request) (w : world) :
  registered e w → registered e (handle r w).
Proof.
  intros (d & Hin & He). apply list_elem_of_lookup in Hin as [i Hi].
  destruct (handle_users_lookup r w i d Hi) as (d' & Hd' & K).
  exists d'. split; [by eapply list_elem_of_lookup_2|].
  by rewrite K.
Qed.

Lemma run_registered (e : string) (reqs : list request) (w : world) :
  registered e w → registered e (run reqs w).
Proof.
  revert w. induction reqs as [|r reqs IH]; intros w H; [done|].
  rewrite run_cons. by apply IH, handle_registered.
Qed.

(** Once a registration with an email has been handled, whatever
    requests of authenticated users follow, a registration with that
    email is refused with 400 and stores nothing. *)
Theorem email_registers_once
    (u : UserCreate) (i h t : string) (n : datetime) (w : world)
    (reqs : list request)
    (first last role password : string) (clinic : option string)
    (i' h' t' : string) (n' : datetime) :
  Forall authenticated reqs →
  let w' := run reqs (snd (register u i h t n w)) in
  register (mk_UserCreate (uc_email u) first last role password clinic)
    i' h' t' n' w'
  = (Raise (HTTPException 400 "Email already registered"), w').
Proof.
  intros _ w'. apply register_refused. simpl.
  apply run_registered, register_registers.
Qed.

Lemma UserResponse_no_hash (d : dict) : UserResponse d !! "password_hash" = None.
Proof.
  unfold UserResponse.
  repeat (apply lookup_union_None_2; [|done]).
  apply lookup_delete_eq.
Qed.

(** The user records that register, login and me answer with never hold
    the password hash. *)
Theorem responses_hide_password_hash :
  (∀ u i h t n w tok resp w',
     register u i h t n w = (Return (tok, resp), w') →
     resp !! "password_hash" = None)
  ∧ (∀ e p v t w tok resp w',
       login e p v t w = (Return (tok, resp), w') →
       resp !! "password_hash" = None)
  ∧ (∀ cu w resp w',
       get_current_user_info cu w = (Return resp, w') →
       resp !! "password_hash" = None).
Proof.
  split; [|split].
  - intros u i h t n w tok resp w'. unfold register.
    destruct (negb _); intros [= <- <- <-]. apply UserResponse_no_hash.
  - intros e p v t w tok resp w'. unfold login.
    case_handler; intros [= <- <- <-]; apply UserResponse_no_hash.
  - intros cu w resp w' [= <- <-]. apply UserResponse_no_hash.
Qed.

Lemma not_registered (email : string) (w : world) :
  ¬ registered email w →
  find_one (Fields {[ "email" := VStr email ]}) (users (db w)) = None.
Proof.
  intros H. destruct (find_one _ _) as [x|] eqn:F; [|done].
  exfalso. apply H. exists x.
  assert (VStr email ≠ VNone) as Hv by done.
  destruct (found_not_empty _ _ _ _ Hv F) as [_ Hx]. split; [|done].
  assert (x ∈ find (Fields {[ "email" := VStr email ]}) (users (db w))) as Hin.
  { unfold find_one in F. destruct (find _ _); simplify_eq/=. left. }
  by apply elem_of_find in Hin as [? _].
Qed.

(** With an email that no stored user carries: login is refused with 401
    "Invalid credentials"; registration succeeds, and from then on login
    with a password that the verifier accepts against the stored hash
    answers with the token and the new user, and login with a password
    it rejects is refused with 401.  Login leaves the world as it is. *)
Theorem login_after_register
    (u : UserCreate) (i h t : string) (n : datetime) (w : world)
    (verify : string → string → bool) (tok : string) :
  ¬ registered (uc_email u) w →
  let w' := snd (register u i h t n w) in
  (∀ p, login (uc_email u) p verify tok w
        = (Raise (HTTPException 401 "Invalid credentials"), w))
  ∧ (∃ user, fst (register u i h t n w) = Return (t, user)
             ∧ get user "id" = VStr i)
  ∧ (∀ p, verify p h = true →
          ∃ user, login (uc_email u) p verify tok w' = (Return (tok, user), w')
                  ∧ get user "id" = VStr i
                  ∧ get user "email" = VStr (uc_email u)
                  ∧ get user "is_active" = VBool true)
  ∧ (∀ p, verify p h = false →
          login (uc_email u) p verify tok w'
          = (Raise (HTTPException 401 "Invalid credentials"), w')).
Proof.
  intros Hfresh w'. pose proof (not_registered _ _ Hfresh) as F.
  split; [|split].
  - intros p. unfold login. by rewrite F.
  - unfold register. rewrite F. simpl. eexists. split; [reflexivity|done].
  - assert (∃ doc, users (db w') = users (db w) ++ [doc]
                   ∧ doc !! "email" = Some (VStr (uc_email u))
                   ∧ get doc "password_hash" = VStr h
                   ∧ doc !! "is_active" = Some (VBool true)
                   ∧ get (UserResponse doc) "id" = VStr i
                   ∧ get (UserResponse doc) "email" = VStr (uc_email u)
                   ∧ get (UserResponse doc) "is_active" = VBool true)
      as (doc & Hu & He & Hh & Ha & R1 & R2 & R3).
    { subst w'. unfold register. rewrite F. simpl. eexists.
      split; [reflexivity|]. repeat split; reflexivity. }
    assert (find_one (Fields {[ "email" := VStr (uc_email u) ]})
              (users (db w')) = Some doc) as F'.
    { rewrite Hu, (find_one_app_new _ _ _ F).
      by rewrite satisfies_field. }
    assert (VStr (uc_email u) ≠ VNone) as Hv by done.
    destruct (found_not_empty _ _ _ _ Hv F') as [Hnf _].
    split.
    + intros p Hp. exists (UserResponse doc). unfold login.
      rewrite F'. rewrite Hnf, Hh. simpl. rewrite Hp, Ha. simpl. done.
    + intros p Hp. unfold login. rewrite F'. rewrite Hnf, Hh. simpl.
      by rewrite Hp.
Qed.

(** *** Clinics *)



Lemma ClinicResponse_keeps (d : dict) (k : string) :
  k ∉ ["abn"; "phone"; "email"] → ClinicResponse d !! k = d !! k.
Proof.
  intros H. unfold ClinicResponse.
  repeat (rewrite lookup_union_l;
          [|apply lookup_singleton_ne; intros <-; apply H;
            by apply (bool_decide_unpack _)]).
  done.
Qed.

Lemma satisfies_or_clinic (cu c : dict) :
  satisfies (Or [ {[ "owner_id" := get cu "id" ]};
                  {[ "id" := get cu "clinic_id" ]} ]) c = true
  ↔ get c "owner_id" = get cu "id" ∨ get c "id" = get cu "clinic_id".
Proof.
  unfold satisfies. simpl. rewrite orb_false_r, orb_true_iff.
  by rewrite !matches_singleton, !field_matches_get.
Qed.

(** [get_user_clinics] lists to an authenticated user nothing but stored
    clinics that the user owns or is affiliated to, and all of those when
    at most 100 clinics are stored. *)
Theorem get_user_clinics_lists_own (cu : dict) (w : world) :
  has_id cu →
  ∃ l, get_user_clinics cu w = (Return (map ClinicResponse l), w)
       ∧ (∀ c, c ∈ l →
               c ∈ clinics (db w)
               ∧ (get c "owner_id" = get cu "id"
                  ∨ get c "id" = get cu "clinic_id"))
       ∧ ((length (clinics (db w)) ≤ 100)%nat →
          ∀ c, c ∈ clinics (db w) →
               get c "owner_id" = get cu "id"
               ∨ get c "id" = get cu "clinic_id" →
               c ∈ l).
Proof.
  intros _. eexists. split; [reflexivity|]. split.
  - intros c Hc. apply elem_of_take in Hc as (i & Hi & _).
    apply list_elem_of_lookup_2, elem_of_find in Hi as [Hin Hs].
    split; [done|]. by apply satisfies_or_clinic.
  - intros Hl c Hin Hc. unfold to_list. rewrite take_ge.
    + apply elem_of_find. split; [done|]. by apply satisfies_or_clinic.
    + unfold find. etrans; [apply filter_length_le|done].
Qed.


(** *** Documents *)

Lemma DocumentResponse_keeps (d : dict) (k : string) :
  k ∉ ["status"; "version"; "tags"; "signature_hash"; "signed_by";
       "signed_at"] →
  DocumentResponse d !! k = d !! k.
Proof.
  intros H. unfold DocumentResponse.
  repeat (rewrite lookup_union_l;
          [|apply lookup_singleton_ne; intros <-; apply H;
            by apply (bool_decide_unpack _)]).
  done.
Qed.

Lemma DocumentResponse_own (d : dict) (k : string) (v : value) :
  d !! k = Some v → DocumentResponse d !! k = Some v.
Proof.
  intros H. unfold DocumentResponse.
  by repeat apply lookup_union_Some_l.
Qed.

Lemma get_document_after_insert (doc : dict) (doc_id : string) (cu : dict)
    (w : world) :
  find_one (by_id doc_id) (documents (db w)) = None →
  doc !! "id" = Some (VStr doc_id) →
  get_document doc_id cu (with_documents (insert_one doc) w)
  = (Return (DocumentResponse doc), with_documents (insert_one doc) w).
Proof.
  intros Hfresh Hid. unfold get_document. simpl. unfold insert_one.
  rewrite (find_one_app_new _ _ _ Hfresh).
  rewrite (proj2 (satisfies_by_id doc_id doc) Hid).
  assert (bool_decide (doc = ∅) = false) as ->; [|done].
  apply bool_decide_eq_false. intros E. by rewrite E in Hid.
Qed.



(** [upload_document] refuses a file of more than 20 MiB with 400 before
    looking at its content, and a file that cannot be parsed with 400 and
    the parser's message; otherwise it appends one draft titled with the
    file name, tagged "uploaded", version 1, unsigned, for whatever
    clinic id it was given (the clinic is not looked up); fetched under
    its id (when no earlier document has that id) by any user, the
    document comes back with these fields. *)
Theorem upload_document_outcomes
    (file : UploadFile) (clinic_id category jurisdiction : string)
    (cu cu' : dict) (parsed : outcome string) (doc_id : string)
    (n1 n2 : datetime) (w : world) :
  let r := upload_document file clinic_id category jurisdiction cu parsed
             doc_id n1 n2 w in
  (20971520 < file_size file →
   r = (Raise (HTTPException 400 "File too large"), w))
  ∧ (∀ e, file_size file ≤ 20971520 → parsed = Raise e →
          r = (Raise (HTTPException 400
                        ("Failed to process file: " +:+ exn_str e)), w))
  ∧ (∀ content, has_id cu →
       file_size file ≤ 20971520 → parsed = Return content →
       ∃ doc,
         fst r = Return (<[ "document_id" := VStr doc_id ]>
                           {[ "message" :=
                                VStr "Document uploaded successfully" ]})
         ∧ snd r = with_documents (insert_one doc) w
         ∧ get doc "id" = VStr doc_id
         ∧ get doc "title" = VStr (file_filename file)
         ∧ get doc "content" = VStr content
         ∧ get doc "clinic_id" = VStr clinic_id
         ∧ get doc "status" = VStr "draft"
         ∧ get doc "version" = VInt 1
         ∧ get doc "tags" = VList ["uploaded"]
         ∧ get doc "created_by" = get cu "id"
         ∧ unsigned (DocumentResponse doc)
         ∧ (find_one (by_id doc_id) (documents (db w)) = None →
            get_document doc_id cu' (snd r)
            = (Return (DocumentResponse doc), snd r))).
Proof.
  intros r. subst r. unfold upload_document.
  change (20 * 1024 * 1024) with 20971520. split; [|split].
  - intros H. apply Z.ltb_lt in H. by rewrite H.
  - intros e H ->. apply Z.ltb_ge in H. by rewrite H.
  - intros content _ H ->. apply Z.ltb_ge in H. rewrite H. simpl.
    eexists. split; [reflexivity|]. split; [reflexivity|].
    repeat (split; [reflexivity|]).
    split; [by repeat constructor|].
    intros Hfresh. by apply get_document_after_insert.
Qed.

Lemma clinic_scope_explicit (c : string) (cu : dict) :
  c ≠ "" → clinic_scope (Some c) cu = {[ "clinic_id" := VStr c ]}.
Proof.
  intros H. unfold clinic_scope. simpl.
  destruct (String.eqb c "") eqn:E; [by apply String.eqb_eq in E|done].
Qed.

Lemma set_if_same (k : string) (s : string) (q : dict) :
  s ≠ "" → set_if k (Some s) q !! k = Some (VStr s).
Proof.
  intros H. unfold set_if. simpl.
  destruct (String.eqb s "") eqn:E; [by apply String.eqb_eq in E|].
  simpl. apply lookup_insert_eq.
Qed.

Lemma cursor_elem (k : string) (q : dict) (coll : list dict) (d : dict) :
  d ∈ take 100 (sort_desc k (find (Fields q) coll)) →
  d ∈ coll ∧ ∀ f v, q !! f = Some v → get d f = v.
Proof.
  intros H. apply elem_of_take in H as (i & Hi & _).
  apply list_elem_of_lookup_2 in Hi. rewrite (sort_desc_perm k _) in Hi.
  apply elem_of_find in Hi as [Hin Hs]. split; [done|].
  by apply matches_get.
Qed.

(** Every document that [get_documents] lists is stored and carries the
    clinic, status and category asked for; when no clinic is asked for,
    the clinic of the user, if it has one.  A clinic asked for is taken
    as it is: the listing is the same for every user. *)
Theorem get_documents_filters
    (clinic_id status category : option string) (cu : dict) (w : world) :
  (∃ l, get_documents clinic_id status category cu w
        = (Return (map DocumentResponse l), w)
        ∧ ∀ d, d ∈ l →
            d ∈ documents (db w)
            ∧ (∀ c, clinic_id = Some c → c ≠ "" →
                    get d "clinic_id" = VStr c)
            ∧ (∀ s, status = Some s → s ≠ "" → get d "status" = VStr s)
            ∧ (∀ g, category = Some g → g ≠ "" →
                    get d "category" = VStr g)
            ∧ (clinic_id = None → truthy (get cu "clinic_id") = true →
               get d "clinic_id" = get cu "clinic_id"))
  ∧ (∀ c cu2, clinic_id = Some c → c ≠ "" →
       get_documents clinic_id status category cu2 w
       = get_documents clinic_id status category cu w).
Proof.
  split.
  - eexists. split; [reflexivity|]. intros d Hd.
    apply cursor_elem in Hd as [Hin Hq]. split; [done|].
    split; [|split; [|split]].
    + intros c -> Hc. apply Hq. rewrite !set_if_other by done.
      rewrite clinic_scope_explicit by done. apply lookup_singleton_eq.
    + intros s -> Hs. apply Hq. rewrite set_if_other by done.
      by apply set_if_same.
    + intros g -> Hg. apply Hq. by apply set_if_same.
    + intros -> Ht. apply Hq. rewrite !set_if_other by done.
      unfold clinic_scope. simpl. rewrite Ht. apply lookup_singleton_eq.
  - intros c cu2 -> Hc. unfold get_documents.
    by rewrite !clinic_scope_explicit.
Qed.

(** *** Risks *)



(** *** Two status writes *)

Lemma written_no_id status doc cu n1 n2 n3 :
  written status doc cu n1 n2 n3 !! "id" = None.
Proof.
  apply written_other. unfold written_keys, signature_fields.
  destruct (String.eqb status _); by apply (bool_decide_unpack _).
Qed.

Lemma written_keeps_content status doc cu n1 n2 n3 (d : dict) :
  get (written status doc cu n1 n2 n3 ∪ d) "content" = get d "content".
Proof.
  unfold get. rewrite lookup_union_r; [done|].
  apply written_other. unfold written_keys, signature_fields.
  destruct (String.eqb status _); by apply (bool_decide_unpack _).
Qed.

(** Two status writes in a row, on the stored fields. *)
Lemma two_status_writes
    (doc_id s1 s2 : string) (cu1 cu2 : dict)
    (a1 a2 a3 b1 b2 b3 : datetime) (w : world) (doc : dict) :
  find_one (by_id doc_id) (documents (db w)) = Some doc →
  s1 ∈ valid_statuses → s2 ∈ valid_statuses →
  let w1 := snd (update_document_status doc_id s1 cu1 a1 a2 a3 w) in
  let r2 := update_document_status doc_id s2 cu2 b1 b2 b3 w1 in
  ∃ d', fst r2 = Return (status_response s2)
        ∧ find_one (by_id doc_id) (documents (db (snd r2))) = Some d'
        ∧ get d' "status" = VStr s2
        ∧ get d' "updated_at" = VDate b1
        ∧ get d' "content" = get doc "content"
        ∧ (s2 = DocumentStatus.PUBLISHED →
           get d' "signed_by" = get cu2 "id"
           ∧ get d' "signed_at" = VDate b3
           ∧ get d' "signature_hash"
             = VStr (create_document_hash (text (get doc "content"))
                       (text (get cu2 "id")) b2))
        ∧ (s1 = DocumentStatus.PUBLISHED → s2 ≠ DocumentStatus.PUBLISHED →
           get d' "signed_by" = get cu1 "id"
           ∧ get d' "signed_at" = VDate a3
           ∧ get d' "signature_hash"
             = VStr (create_document_hash (text (get doc "content"))
                       (text (get cu1 "id")) a2)).
Proof.
  intros F H1 H2 w1 r2. subst w1 r2.
  rewrite (update_document_status_found _ _ _ _ _ _ _ _ H1 F). simpl.
  set (u1 := written s1 doc cu1 a1 a2 a3).
  assert (find_one (by_id doc_id)
            (documents (db (with_documents
                              (update_one (by_id doc_id) u1) w)))
          = Some (u1 ∪ doc)) as F1.
  { simpl. rewrite update_one_find_one, F; [done|apply written_no_id]. }
  rewrite (update_document_status_found _ _ _ _ _ _ _ _ H2 F1). simpl.
  set (u2 := written s2 (u1 ∪ doc) cu2 b1 b2 b3).
  exists (u2 ∪ (u1 ∪ doc)). split; [done|]. split.
  { rewrite update_one_find_one; [|apply written_no_id].
    rewrite update_one_find_one, F; [done|apply written_no_id]. }
  destruct (written_status s2 (u1 ∪ doc) cu2 b1 b2 b3) as [Hs Hu].
  split; [unfold get; by rewrite (lookup_union_Some_l _ _ _ _ Hs)|].
  split; [unfold get; by rewrite (lookup_union_Some_l _ _ _ _ Hu)|].
  split.
  { subst u2 u1. by rewrite !written_keeps_content. }
  split.
  - intros ->.
    destruct (written_signature (u1 ∪ doc) cu2 b1 b2 b3) as (A & B & C).
    subst u2. split; [|split].
    + unfold get at 1. by rewrite (lookup_union_Some_l _ _ _ _ B).
    + unfold get at 1. by rewrite (lookup_union_Some_l _ _ _ _ C).
    + unfold get at 1. rewrite (lookup_union_Some_l _ _ _ _ A).
      subst u1. by rewrite written_keeps_content.
  - intros -> Hne.
    destruct (written_other_status s2 (u1 ∪ doc) cu2 (u1 ∪ doc) b1 b2 b3 Hne)
      as [K _].
    destruct (written_signature doc cu1 a1 a2 a3) as (A & B & C).
    subst u2. split; [|split].
    + unfold get at 1. rewrite K by (by apply (bool_decide_unpack _)).
      by rewrite (lookup_union_Some_l _ _ _ _ B).
    + unfold get at 1. rewrite K by (by apply (bool_decide_unpack _)).
      by rewrite (lookup_union_Some_l _ _ _ _ C).
    + unfold get at 1. rewrite K by (by apply (bool_decide_unpack _)).
      by rewrite (lookup_union_Some_l _ _ _ _ A).
Qed.

(** Status writes are not guarded by the current status and the last one
    wins: after two writes with known statuses to a stored document that
    has a content, the document carries the second status and the second
    update time.  If
    the second publishes, the signature is the second writer's, over the
    unchanged content; if the first published and the second did not,
    the first writer's signature stays. *)
Theorem status_last_write_wins
    (doc_id s1 s2 : string) (cu1 cu2 : dict)
    (a1 a2 a3 b1 b2 b3 : datetime) (w : world) (doc : dict)
    (content user1 user2 : string) :
  find_one (by_id doc_id) (documents (db w)) = Some doc →
  doc !! "content" = Some (VStr content) →
  cu1 !! "id" = Some (VStr user1) → cu2 !! "id" = Some (VStr user2) →
  s1 ∈ valid_statuses → s2 ∈ valid_statuses →
  let w1 := snd (update_document_status doc_id s1 cu1 a1 a2 a3 w) in
  let r2 := update_document_status doc_id s2 cu2 b1 b2 b3 w1 in
  ∃ d', fst r2 = Return (status_response s2)
        ∧ find_one (by_id doc_id) (documents (db (snd r2))) = Some d'
        ∧ get d' "status" = VStr s2
        ∧ get d' "updated_at" = VDate b1
        ∧ get d' "content" = VStr content
        ∧ (s2 = DocumentStatus.PUBLISHED →
           get d' "signed_by" = VStr user2
           ∧ get d' "signed_at" = VDate b3
           ∧ get d' "signature_hash"
             = VStr (create_document_hash content user2 b2))
        ∧ (s1 = DocumentStatus.PUBLISHED → s2 ≠ DocumentStatus.PUBLISHED →
           get d' "signed_by" = VStr user1
           ∧ get d' "signed_at" = VDate a3
           ∧ get d' "signature_hash"
             = VStr (create_document_hash content user1 a2)).
Proof.
  intros F Hc H1 H2 Hs1 Hs2 w1 r2.
  assert (get doc "content" = VStr content) as Ec
    by (unfold get; by rewrite Hc).
  assert (get cu1 "id" = VStr user1) as E1 by (unfold get; by rewrite H1).
  assert (get cu2 "id" = VStr user2) as E2 by (unfold get; by rewrite H2).
  destruct (two_status_writes doc_id s1 s2 cu1 cu2 a1 a2 a3 b1 b2 b3 w doc
              F Hs1 Hs2) as (d' & Hr & Hf & Hs & Hu & Hk & Hp & Hq).
  exists d'. split; [exact Hr|]. split; [exact Hf|]. split; [exact Hs|].
  split; [exact Hu|]. split; [by rewrite Hk|]. split.
  - intros Hpub. destruct (Hp Hpub) as (A & B & C).
    rewrite Ec, E2 in C. rewrite E2 in A. done.
  - intros Hpub Hne. destruct (Hq Hpub Hne) as (A & B & C).
    rewrite Ec, E1 in C. rewrite E1 in A. done.
Qed.

(** *** Audits *)

Lemma audit_document_cases content jurisdiction key chat :
  audit_document content jurisdiction key chat = Return (AuditResult "")
  ∨ audit_document content jurisdiction key chat
    = Raise (HTTPException 500 "Document audit failed").
Proof.
  unfold audit_document, try_except.
  destruct key as [k|]; [|by right].
  destruct (negb (truthy (VStr k))); [by right|].
  destruct (chat _ _ _ _); [by left|by right].
Qed.

(** What [audit_document] returns does not depend on the document, the
    jurisdiction or the reply of the model: it is the fixed record with
    score 85.0, no issues and two recommendations.  Whatever goes wrong,
    a missing key included, is raised as 500 "Document audit failed". *)
Theorem audit_document_is_fixed
    (content jurisdiction : string) (key : option string) (chat : chat_client) :
  (∀ r, audit_document content jurisdiction key chat = Return r →
        r = AuditResult ""
        ∧ get r "score" = VFloat (85, 1%positive)
        ∧ get r "compliance_issues" = VList [])
  ∧ (∀ e, audit_document content jurisdiction key chat = Raise e →
          e = HTTPException 500 "Document audit failed")
  ∧ audit_document content jurisdiction None chat
    = Raise (HTTPException 500 "Document audit failed")
  ∧ audit_document content jurisdiction (Some "") chat
    = Raise (HTTPException 500 "Document audit failed").
Proof.
  split; [|split; [|split; reflexivity]].
  - intros r Hr.
    destruct (audit_document_cases content jurisdiction key chat) as [E|E];
      rewrite E in Hr; [|discriminate].
    injection Hr as <-. repeat split; reflexivity.
  - intros e He.
    destruct (audit_document_cases content jurisdiction key chat) as [E|E];
      rewrite E in He; [discriminate|congruence].
Qed.

(** [audit_document_endpoint] answers 404 for an unknown document and
    stores nothing; for a stored document with a content and a
    jurisdiction, when the audit returns, it appends one record that
    names the document, the auditing user and the time, with the fixed
    score, and answers with the result bound to the document; the
    documents are left as they are. *)
Theorem audit_endpoint_records
    (doc_id : string) (cu : dict) (chat : chat_client) (audit_id : string)
    (now : datetime) (w : world) :
  let r := audit_document_endpoint doc_id cu chat audit_id now w in
  (find_one (by_id doc_id) (documents (db w)) = None →
   r = (Raise (HTTPException 404 "Document not found"), w))
  ∧ (∀ doc content jurisdiction res,
       has_id cu →
       find_one (by_id doc_id) (documents (db w)) = Some doc →
       doc !! "content" = Some (VStr content) →
       doc !! "jurisdiction" = Some (VStr jurisdiction) →
       audit_document content jurisdiction (OPENAI_API_KEY w) chat
       = Return res →
       ∃ record,
         fst r = Return (<[ "document_id" := VStr doc_id ]> (AuditResult ""))
         ∧ audits (db (snd r)) = audits (db w) ++ [record]
         ∧ documents (db (snd r)) = documents (db w)
         ∧ get record "id" = VStr audit_id
         ∧ get record "document_id" = VStr doc_id
         ∧ get record "audited_by" = get cu "id"
         ∧ get record "audited_at" = VDate now
         ∧ get record "score" = VFloat (85, 1%positive)).
Proof.
  intros r. subst r. split.
  - intros F. unfold audit_document_endpoint. by rewrite F.
  - intros doc content jurisdiction res _ F Hc Hj Ha.
    unfold audit_document_endpoint. rewrite F.
    destruct (find_one_by_id_Some _ _ _ F) as [_ ->].
    assert (get doc "content" = VStr content) as -> by (unfold get; by rewrite Hc).
    assert (get doc "jurisdiction" = VStr jurisdiction) as ->
      by (unfold get; by rewrite Hj).
    cbn [text]. rewrite Ha.
    assert (res = AuditResult "") as ->.
    { destruct (audit_document_cases content jurisdiction
                  (OPENAI_API_KEY w) chat)
        as [E|E]; rewrite E in Ha; congruence. }
    eexists. split; [reflexivity|]. split; [reflexivity|].
    repeat (split; [reflexivity|]). reflexivity.
Qed.

(** *** Settings *)

(** A non-empty key saved through the settings (one that the environment
    takes: no NUL character) becomes the key of the process, once the
    environment file is written: [get_settings] then shows it masked, and
    [generate_ai_document] hands it to the model instead of failing for
    want of a key.  A missing or empty key changes nothing, whatever
    happens to the environment file.  [get_settings] shows "***" or the
    empty string, never the key.  Neither route touches the store. *)
Theorem settings_key_takes_effect :
  (∀ settings cu cu' w k,
     has_id cu →
     get settings "openai_api_key" = VStr k → k ≠ "" →
     "000"%char ∉ unstr k →
     let w' := snd (save_settings settings cu (Return tt) w) in
     OPENAI_API_KEY w' = Some k
     ∧ db w' = db w
     ∧ (∃ shown, get_settings cu' w' = (Return shown, w')
                 ∧ get shown "openai_api_key" = VStr "***")
     ∧ (∀ p j c chat reply,
          chat k j c p = Return reply →
          generate_ai_document p j c (OPENAI_API_KEY w') chat = Return reply))
  ∧ (∀ settings cu env_file w,
       truthy (get settings "openai_api_key") = false →
       save_settings settings cu env_file w
       = (Return {[ "message" := VStr "Settings saved successfully" ]}, w))
  ∧ (∀ cu w,
       ∃ shown, get_settings cu w = (Return shown, w)
                ∧ (get shown "openai_api_key" = VStr "***"
                   ∨ get shown "openai_api_key" = VStr "")).
Proof.
  split; [|split].
  - intros settings cu cu' w k _ Hk Hne _ w'. subst w'.
    assert (String.eqb k "" = false) as E.
    { destruct (String.eqb k "") eqn:E; [by apply String.eqb_eq in E|done]. }
    unfold save_settings. rewrite Hk. simpl. rewrite E. simpl.
    split; [done|]. split; [done|]. split.
    + eexists. split; [reflexivity|]. simpl. rewrite E. reflexivity.
    + intros p j c chat reply Hr. unfold generate_ai_document. simpl.
      rewrite E. simpl. by rewrite Hr.
  - intros settings cu env_file w H. unfold save_settings. by rewrite H.
  - intros cu w. eexists. split; [reflexivity|].
    destruct (truthy (opt_str (OPENAI_API_KEY w))); [by left|by right].
Qed.

(** *** The title is clean *)

Lemma lstrip_Forall (P : ascii → Prop) (l : chars) :
  Forall P l → Forall P (lstrip l).
Proof.
  induction 1 as [|c l Hc Hl IH]; simpl; [constructor|].
  destruct (isspace c); [done|by constructor].
Qed.

Lemma rstrip_Forall (P : ascii → Prop) (l : chars) :
  Forall P l → Forall P (rstrip l).
Proof.
  intros H. unfold rstrip. apply Forall_rev, lstrip_Forall.
  by apply Forall_rev.
Qed.

Lemma sub_empty_Forall (cls : ascii → bool) (l : chars) :
  Forall (fun c => cls c = false) (Re.sub_empty cls l).
Proof.
  unfold Re.sub_empty. rewrite Forall_forall. intros c Hc.
  apply list_elem_of_In, filter_In in Hc as [_ Hc].
  by apply negb_true_iff.
Qed.

Lemma rstrip_split (l : chars) :
  ∃ sp, l = rstrip l ++ sp
        ∧ (rstrip l = [] ∨ ∃ c, last (rstrip l) = Some c ∧ isspace c = false).
Proof.
  destruct (lstrip_split (rev l)) as (sp & E & _ & H).
  exists (rev sp). unfold rstrip. split.
  - by rewrite <- rev_app_distr, <- E, rev_involutive.
  - destruct H as [->|(c & t & -> & Hc)]; [by left|]. right. exists c.
    split; [|done]. simpl. by rewrite last_snoc.
Qed.

Lemma strip_ends (l : chars) :
  (∀ c, head (strip l) = Some c → isspace c = false)
  ∧ (∀ c, last (strip l) = Some c → isspace c = false).
Proof.
  unfold strip.
  destruct (rstrip_split (lstrip l)) as (sp & E & Hr).
  destruct (lstrip_split l) as (_ & _ & _ & Hl).
  split.
  - intros c Hc. destruct (rstrip (lstrip l)) as [|x t] eqn:R; [done|].
    simpl in Hc. injection Hc as ->.
    destruct Hl as [Hl|(c' & t' & Hl & Hc')]; rewrite Hl in E; [done|].
    simpl in E. by injection E as <- _.
  - intros c Hc. destruct Hr as [Hr|(c' & Hr & Hc')].
    + by rewrite Hr in Hc.
    + congruence.
Qed.

(** Whatever the model replied, the title holds none of the characters
    # * _ and backtick, and neither begins nor ends with whitespace. *)
Theorem title_is_clean (content : chars) :
  Forall (fun c => marker c = false) (title_chars content)
  ∧ (∀ c, head (title_chars content) = Some c → isspace c = false)
  ∧ (∀ c, last (title_chars content) = Some c → isspace c = false).
Proof.
  unfold title_chars. split; [|apply strip_ends].
  unfold strip. apply rstrip_Forall, lstrip_Forall, sub_empty_Forall.
Qed.

(** *** The digest is 64 hexadecimal digits *)

Lemma be_bytes_length (n : nat) (x : Z) : length (Sha256.be_bytes n x) = n.
Proof. unfold Sha256.be_bytes. by rewrite length_map, length_rev, length_seq. Qed.

Lemma be_bytes_range (n : nat) (x : Z) :
  Forall (fun b => 0 ≤ b < 256) (Sha256.be_bytes n x).
Proof.
  unfold Sha256.be_bytes. rewrite Forall_forall. intros b Hb.
  apply list_elem_of_In, in_map_iff in Hb as (i & <- & _).
  change 255 with (Z.ones 8). rewrite Z.land_ones by lia.
  change (2 ^ 8) with 256. apply Z.mod_pos_bound. lia.
Qed.

Lemma compress_length (h block : list Z) :
  length h = 8%nat → length (Sha256.compress h block) = 8%nat.
Proof.
  intros H. unfold Sha256.compress.
  rewrite length_map, length_combine, H. reflexivity.
Qed.

Lemma blocks_length (n : nat) (h bs : list Z) :
  length h = 8%nat → length (Sha256.blocks n h bs) = 8%nat.
Proof.
  revert h bs. induction n as [|n IH]; intros h bs H; simpl; [done|].
  by apply IH, compress_length.
Qed.

Lemma flat_map_length_const {A B} (f : A → list B) (k : nat) (l : list A) :
  (∀ x, length (f x) = k) → length (flat_map f l) = (length l * k)%nat.
Proof.
  intros H. induction l as [|x l IH]; simpl; [done|].
  by rewrite length_app, H, IH.
Qed.

Lemma flat_map_Forall {A B} (P : B → Prop) (f : A → list B) (l : list A) :
  Forall (fun x => Forall P (f x)) l → Forall P (flat_map f l).
Proof.
  induction 1 as [|x l Hx Hl IH]; simpl; [constructor|].
  by apply Forall_app.
Qed.

Lemma digest_shape (msg : list Z) :
  length (Sha256.digest msg) = 32%nat
  ∧ Forall (fun b => 0 ≤ b < 256) (Sha256.digest msg).
Proof.
  unfold Sha256.digest. split.
  - rewrite (flat_map_length_const _ 4) by apply be_bytes_length.
    by rewrite blocks_length.
  - apply flat_map_Forall, Forall_forall. intros x _. apply be_bytes_range.
Qed.

Lemma hex_digit_lower (n : Z) :
  0 ≤ n < 16 → is_lower_hex (Sha256.hex_digit n) = true.
Proof.
  intros H.
  assert (n = 0 ∨ n = 1 ∨ n = 2 ∨ n = 3 ∨ n = 4 ∨ n = 5 ∨ n = 6 ∨ n = 7
          ∨ n = 8 ∨ n = 9 ∨ n = 10 ∨ n = 11 ∨ n = 12 ∨ n = 13 ∨ n = 14
          ∨ n = 15) as Hn by lia.
  repeat (destruct Hn as [->|Hn]; [reflexivity|]). by subst.
Qed.

Lemma str_length (l : chars) : String.length (str l) = length l.
Proof. unfold str. induction l as [|c l IH]; simpl; [done|]. by rewrite IH. Qed.

(** Whatever the content, the user id and the timestamp, the signature
    digest is a string of 64 lower-case hexadecimal digits. *)
Theorem digest_is_64_hex_digits
    (content user_id : string) (timestamp : datetime) :
  String.length (create_document_hash content user_id timestamp) = 64%nat
  ∧ Forall (fun c => is_lower_hex c = true)
      (unstr (create_document_hash content user_id timestamp)).
Proof.
  unfold create_document_hash, Sha256.hexdigest.
  destruct (digest_shape
              (encode (content +:+ user_id +:+ isoformat timestamp)))
    as [Hl Hr].
  split.
  - rewrite str_length, (flat_map_length_const _ 2) by done. by rewrite Hl.
  - unfold unstr, str. rewrite list_ascii_of_string_of_list_ascii.
    apply flat_map_Forall. eapply Forall_impl; [exact Hr|].
    intros b Hb. cbv beta in Hb. simpl. repeat constructor.
    + apply hex_digit_lower. rewrite Z.shiftr_div_pow2 by lia.
      change (2 ^ 4) with 16. split.
      * apply Z.div_pos; lia.
      * apply Z.div_lt_upper_bound; lia.
    + apply hex_digit_lower. change 15 with (Z.ones 4).
      rewrite Z.land_ones by lia. change (2 ^ 4) with 16.
      apply Z.mod_pos_bound. lia.
Qed.

(** *** Worked cases *)


Lemma login_after_register_witness :
  let u := mk_UserCreate "pat@example.com" "Pat" "Lee" "manager" "secret"
             None in
  let verify := fun p h : string => String.eqb p "secret" in
  let w' := snd (register u "user-1" "$2b$12$hash" "token-1" sample_time
                   (empty_world None)) in
  (∃ user, login "pat@example.com" "secret" verify "token-2" w'
           = (Return ("token-2", user), w')
           ∧ get user "id" = VStr "user-1")
  ∧ login "pat@example.com" "guess" verify "token-2" w'
    = (Raise (HTTPException 401 "Invalid credentials"), w').
Proof.
  intros u verify w'.
  assert (¬ registered (uc_email u) (empty_world None)) as Hfresh.
  { intros (d & Hin & _). simpl in Hin. by apply elem_of_nil in Hin. }
  destruct (login_after_register u "user-1" "$2b$12$hash" "token-1"
              sample_time (empty_world None) verify "token-2" Hfresh)
    as (_ & _ & Hok & Hbad).
  split.
  - destruct (Hok "secret" eq_refl) as (user & Hl & Hid & _).
    exists user. split; [exact Hl | exact Hid].
  - exact (Hbad "guess" eq_refl).
Defined.



Lemma status_last_write_wins_witness :
  let w := run [sample_upload] (empty_world None) in
  let t := mk_datetime 2024 3 2 8 0 0 0 in
  let w1 := snd (update_document_status "doc-1" "published" sample_user
                   sample_time sample_time sample_time w) in
  let r2 := update_document_status "doc-1" "draft" unaffiliated_user
              t t t w1 in
  ∃ d', find_one (by_id "doc-1") (documents (db (snd r2))) = Some d'
        ∧ get d' "status" = VStr "draft"
        ∧ get d' "updated_at" = VDate t
        ∧ get d' "signed_by" = VStr "user-1".
Proof.
  intros w t w1 r2.
  eassert (find_one (by_id "doc-1") (documents (db w)) = Some _) as F
    by reflexivity.
  destruct (status_last_write_wins "doc-1" "published" "draft" sample_user
              unaffiliated_user sample_time sample_time sample_time t t t
              w _ "Wash hands." "user-1" "user-9" F)
    as (d' & _ & Hf & Hs & Hu & _ & _ & Hstale).
  - reflexivity.
  - reflexivity.
  - reflexivity.
  - by apply (bool_decide_unpack _).
  - by apply (bool_decide_unpack _).
  - exists d'. split; [exact Hf|]. split; [exact Hs|]. split; [exact Hu|].
    destruct Hstale as (Hb & _); [reflexivity|discriminate|exact Hb].
Defined.


Lemma upload_document_outcomes_witness :
  let at_limit := mk_UploadFile 20971520 "application/pdf" "manual.pdf" in
  let over := mk_UploadFile 20971521 "application/pdf" "manual.pdf" in
  let up f p := upload_document f "no-such-clinic" "policy" "national"
                  sample_user p "doc-7" sample_time sample_time
                  (empty_world None) in
  (∃ doc, get_document "doc-7" unaffiliated_user
            (snd (up at_limit (Return "Manual")))
          = (Return (DocumentResponse doc), snd (up at_limit (Return "Manual")))
          ∧ get doc "title" = VStr "manual.pdf"
          ∧ get doc "clinic_id" = VStr "no-such-clinic")
  ∧ up over (Return "Manual")
    = (Raise (HTTPException 400 "File too large"), empty_world None)
  ∧ up at_limit (Raise (Exception "EOF marker not found"))
    = (Raise (HTTPException 400
                "Failed to process file: EOF marker not found"),
       empty_world None).
Proof.
  intros at_limit over up. split; [|split].
  - destruct (upload_document_outcomes at_limit "no-such-clinic" "policy"
                "national" sample_user unaffiliated_user (Return "Manual")
                "doc-7" sample_time sample_time (empty_world None))
      as (_ & _ & H).
    destruct (H "Manual") as (doc & _ & _ & _ & Ht & _ & Hc & _ & _ & _ & _
                              & _ & Hg); [done|simpl; lia|reflexivity|].
    exists doc. split; [exact (Hg eq_refl)|]. split; [exact Ht | exact Hc].
  - destruct (upload_document_outcomes over "no-such-clinic" "policy"
                "national" sample_user unaffiliated_user (Return "Manual")
                "doc-7" sample_time sample_time (empty_world None))
      as (H & _).
    apply H. simpl. lia.
  - destruct (upload_document_outcomes at_limit "no-such-clinic" "policy"
                "national" sample_user unaffiliated_user
                (Raise (Exception "EOF marker not found"))
                "doc-7" sample_time sample_time (empty_world None))
      as (_ & H & _).
    apply (H (Exception "EOF marker not found")); [simpl; lia|reflexivity].
Defined.

Lemma audit_endpoint_records_witness :
  let r1 := audit_document_endpoint "doc-1" sample_user
              (canned "score: 12") "audit-1" sample_time sample_world in
  let r2 := audit_document_endpoint "doc-1" sample_user
              (canned "score: 97") "audit-1" sample_time sample_world in
  fst r1 = fst r2
  ∧ ∃ record, audits (db (snd r1)) = [record]
              ∧ get record "document_id" = VStr "doc-1"
              ∧ get record "score" = VFloat (85, 1%positive).
Proof.
  intros r1 r2.
  eassert (find_one (by_id "doc-1") (documents (db sample_world)) = Some _)
    as F by reflexivity.
  destruct (audit_endpoint_records "doc-1" sample_user (canned "score: 12")
              "audit-1" sample_time sample_world) as (_ & H1).
  destruct (audit_endpoint_records "doc-1" sample_user (canned "score: 97")
              "audit-1" sample_time sample_world) as (_ & H2).
  destruct (H1 _ _ _ _ ltac:(done) F eq_refl eq_refl eq_refl)
    as (rec1 & Hr1 & Ha1 & _ & _ & Hd & _ & _ & Hs).
  destruct (H2 _ _ _ _ ltac:(done) F eq_refl eq_refl eq_refl) as (rec2 & Hr2 & _).
  split.
  - subst r1 r2. by rewrite Hr1, Hr2.
  - exists rec1. split; [exact Ha1|]. split; [exact Hd | exact Hs].
Defined.

Lemma settings_key_takes_effect_witness :
  let settings : dict := {[ "openai_api_key" := VStr "sk-1" ]} in
  let w' := snd (save_settings settings sample_user (Return tt)
                   (empty_world None)) in
  OPENAI_API_KEY w' = Some "sk-1"
  ∧ generate_ai_document "Cold chain" "NSW" "policy" (OPENAI_API_KEY w')
      (canned "# Cold Chain")
    = Return "# Cold Chain".
Proof.
  intros settings w'.
  destruct settings_key_takes_effect as (H & _).
  destruct (H settings sample_user sample_user (empty_world None) "sk-1")
    as (Hk & _ & _ & Hg);
    [done|reflexivity|discriminate|by apply (bool_decide_unpack _)|].
  split; [exact Hk|]. by apply Hg.
Defined.

(** *** A line of hashes without text *)

(** When the first line that begins with a hash holds nothing but hashes
    and whitespace, the pattern runs over the line break and the title is
    taken from the next line that has text, whatever that line is. *)
Theorem hash_only_line_takes_later_text
    (pre sp rest : chars) (k : nat) (c : ascii) (t : chars) :
  ends_line pre → line_starts_with_hash true pre = false →
  (1 ≤ k)%nat →
  Forall (fun x => isspace x = true) sp → LF ∈ sp →
  isspace c = false → LF ∉ c :: t → line_end rest →
  title_chars (pre ++ repeat "#"%char k ++ sp ++ (c :: t) ++ rest)
  = strip (Re.sub_empty marker (strip (c :: t))).
Proof.
  intros Hpre Hno Hk Hsp Hlf Hc Hnl Hrest. unfold title_chars.
  rewrite (search_heading pre sp (c :: t) rest k c t); try done.
  - intros ->. by apply elem_of_nil in Hlf.
  - by apply no_newline_forall.
Qed.

Lemma hash_only_line_takes_later_text_witness :
  title_chars (unstr "Intro" ++ [LF] ++ unstr "#" ++ [LF]
               ++ unstr "Body text. More")
  = unstr "Body text. More".
Proof.
  etrans; [apply (hash_only_line_takes_later_text
                    (unstr "Intro" ++ [LF]) [LF] [] 1 "B"%char
                    (unstr "ody text. More"))|].
  - by right.
  - reflexivity.
  - lia.
  - by repeat constructor.
  - left.
  - reflexivity.
  - apply (bool_decide_unpack _). vm_compute. exact I.
  - by left.
  - vm_compute. reflexivity.
Defined.

(** *** A deactivated account *)

(** A stored user whose account is deactivated cannot log in: with the
    right password the answer is 401 "Account deactivated", with a wrong
    one 401 "Invalid credentials", as for any account. *)
Theorem login_deactivated
    (email : string) (verify : string → string → bool) (tok : string)
    (w : world) (user : dict) :
  find_one (Fields {[ "email" := VStr email ]}) (users (db w)) = Some user →
  user !! "is_active" = Some (VBool false) →
  ∀ h, user !! "password_hash" = Some (VStr h) →
  ∀ p, login email p verify tok w
       = (Raise (HTTPException 401
                   (if verify p h
                    then "Account deactivated" else "Invalid credentials")),
          w).
Proof.
  intros F Ha h Hh p. unfold login. rewrite F.
  assert (VStr email ≠ VNone) as Hv by done.
  destruct (found_not_empty _ _ _ _ Hv F) as [-> _]. simpl.
  unfold get. rewrite Hh. simpl.
  destruct (verify p h); simpl; [|done]. by rewrite Ha.
Qed.

Lemma login_deactivated_witness :
  let verify := fun p h : string => String.eqb p "secret" in
  login "sam@example.com" "secret" verify "token-3" deactivated_world
  = (Raise (HTTPException 401 "Account deactivated"), deactivated_world)
  ∧ login "sam@example.com" "guess" verify "token-3" deactivated_world
    = (Raise (HTTPException 401 "Invalid credentials"), deactivated_world).
Proof.
  intros verify.
  eassert (find_one (Fields {[ "email" := VStr "sam@example.com" ]})
             (users (db deactivated_world)) = Some _) as F by reflexivity.
  split.
  - exact (login_deactivated "sam@example.com" verify "token-3"
             deactivated_world _ F eq_refl _ eq_refl "secret").
  - exact (login_deactivated "sam@example.com" verify "token-3"
             deactivated_world _ F eq_refl _ eq_refl "guess").
Defined.

(** *** Further worked cases *)

Lemma nothing_is_deleted_witness :
  let t := mk_datetime 2024 3 2 8 0 0 0 in
  let reqs := [ UpdateDocumentStatus "doc-1" "published" sample_user t t t;
                CreateClinic (mk_ClinicCreate "Second Practice" None
                                "2 Hill Road" "VIC" None None)
                  sample_user "clinic-2" "second-practice" t ] in
  clinics (db sample_world) `prefix_of` clinics (db (run reqs sample_world))
  ∧ ∃ d', documents (db (run reqs sample_world)) !! 0%nat = Some d'
          ∧ d' !! "id" = Some (VStr "doc-1").
Proof.
  intros t reqs.
  assert (Forall authenticated reqs) as Hauth by (by repeat constructor).
  destruct (nothing_is_deleted reqs sample_world Hauth)
    as (Hc & _ & _ & _ & Hd).
  split; [exact Hc|].
  eassert (documents (db sample_world) !! 0%nat = Some _) as H0
    by reflexivity.
  destruct (Hd _ _ H0) as (d' & H' & Hid).
  exists d'. split; [exact H'|]. rewrite Hid. reflexivity.
Defined.

Lemma email_registers_once_witness :
  let u := mk_UserCreate "pat@example.com" "Pat" "Lee" "manager" "secret"
             None in
  let w' := run [sample_clinic; sample_upload]
              (snd (register u "user-1" "$2b$12$hash" "token-1" sample_time
                      (empty_world None))) in
  register (mk_UserCreate "pat@example.com" "Sam" "Roe" "staff" "other" None)
    "user-2" "$2b$12$hash2" "token-2" sample_time w'
  = (Raise (HTTPException 400 "Email already registered"), w').
Proof.
  intros u w'.
  assert (Forall authenticated [sample_clinic; sample_upload]) as Hauth
    by (by repeat constructor).
  exact (email_registers_once u "user-1" "$2b$12$hash" "token-1" sample_time
           (empty_world None) [sample_clinic; sample_upload]
           "Sam" "Roe" "staff" "other" None
           "user-2" "$2b$12$hash2" "token-2" sample_time Hauth).
Defined.

Lemma get_user_clinics_lists_own_witness :
  ∃ l c, get_user_clinics sample_user sample_world
         = (Return (map ClinicResponse l), sample_world)
         ∧ c ∈ l
         ∧ get c "id" = VStr "clinic-1"
         ∧ get c "owner_id" = VStr "user-1".
Proof.
  assert (has_id sample_user) as Hid by done.
  destruct (get_user_clinics_lists_own sample_user sample_world Hid)
    as (l & Hl & _ & Hall).
  eassert (clinics (db sample_world) = [_]) as Hc by reflexivity.
  eexists l, _. split; [exact Hl|]. split.
  - apply Hall.
    + rewrite Hc. simpl. lia.
    + rewrite Hc. left.
    + left. reflexivity.
  - split; reflexivity.
Defined.
